(** * Score normalisation and maturity classification of the DMAP report

    A shallow embedding of the scoring logic of [DMAP/pdf_generator.py]
    (class [ProductResultsPDFGenerator]) and of the phase categorisation of
    [DMAP/test_enhanced_roadmap.py], followed by the properties of that
    logic.  Page layout (ReportLab paragraphs, tables, styles) is left out:
    every [create_*] method is represented by the data it puts on the page. *)

From Stdlib Require Import ZArith QArith Qround Qabs Qpower Qreduction.
From Stdlib Require Import List String Bool Lia Lqa.
From Stdlib Require Import Permutation.
Import ListNotations.

Local Open Scope Z_scope.

(** ** The fragment of the Python runtime the code relies on *)

Module Py.

(** Python numbers met by the code: [int] (unbounded) and [float]
    (binary64).  A float is represented by the rational it denotes: the
    numbers here are the finite ones.  The infinities and NaN are left to
    the module [NonFinite] below, the sign of zero is not represented.
    The arithmetic is exact as long as every int and every result stays
    within the range of the floats; where Python would overflow (an int
    too large for a float, a sum that reaches infinity) the operators
    below do not follow it, and the statements on arithmetic bound their
    inputs accordingly. *)
Inductive number : Type :=
| Int (z : Z)
| Float (q : Q).

Inductive pyval : Type :=
| PyNone
| PyNum (n : number).

Inductive exn : Type :=
| TypeError
| ZeroDivisionError
| OverflowError
| ValueError.

(** A computation either returns or raises. *)
Inductive result (A : Type) : Type :=
| Ok (a : A)
| Raise (e : exn).
Arguments Ok {A} a.
Arguments Raise {A} e.

Definition bind {A B : Type} (m : result A) (k : A -> result B) : result B :=
  match m with
  | Ok a => k a
  | Raise e => Raise e
  end.

(** [for x in xs: body], threading the loop's local variables. *)
Fixpoint for_each {S A : Type} (body : S -> A -> result S) (xs : list A) (s : S)
  : result S :=
  match xs with
  | [] => Ok s
  | x :: rest => bind (body s x) (for_each body rest)
  end.

(** The rational a number denotes. *)
Definition value (n : number) : Q :=
  match n with
  | Int z => inject_Z z
  | Float q => q
  end.

(** *** Rounding *)

(** Round to the nearest integer, ties to the even one: what [round(x)]
    does on a float. *)
Definition round_half_even (q : Q) : Z :=
  let f := Qfloor q in
  match (q - inject_Z f ?= 1 # 2)%Q with
  | Lt => f
  | Gt => f + 1
  | Eq => if Z.even f then f else f + 1
  end.

(** Exponent of the leading binary digit of a positive rational:
    [2 ^ ilog2 q <= q < 2 ^ (ilog2 q + 1)]. *)
Definition ilog2 (q : Q) : Z :=
  let e := Z.log2 (Qnum q) - Z.log2 (Zpos (Qden q)) in
  if Qle_bool (2 ^ e) q then e else e - 1.

(** Rounding of an exact result to binary64: 53 significant bits, ties to
    even, gradual underflow below [2 ^ -1022].  Overflow is not
    represented. *)
Definition binary64 (q : Q) : Q :=
  if Qeq_bool q 0 then 0%Q
  else
    let e := Z.max (ilog2 (Qabs q) - 52) (-1074) in
    Qred (inject_Z (round_half_even (q / 2 ^ e)) * 2 ^ e).

(** [float(n)]. *)
Definition to_float (n : number) : Q :=
  match n with
  | Int z => binary64 (inject_Z z)
  | Float q => q
  end.

(** *** Operators *)

(** [bool(v)]. *)
Definition truthy (v : pyval) : bool :=
  match v with
  | PyNone => false
  | PyNum n => negb (Qeq_bool (value n) 0)
  end.

(** [a > b] and [a < b]: numbers compare by value, [None] does not
    compare. *)
Definition gt (a b : pyval) : result bool :=
  match a, b with
  | PyNum x, PyNum y => Ok (negb (Qle_bool (value x) (value y)))
  | _, _ => Raise TypeError
  end.

Definition lt (a b : pyval) : result bool := gt b a.

(** [a + b]: exact on two ints, a float addition otherwise. *)
Definition add (a b : pyval) : result pyval :=
  match a, b with
  | PyNum (Int x), PyNum (Int y) => Ok (PyNum (Int (x + y)))
  | PyNum x, PyNum y => Ok (PyNum (Float (binary64 (to_float x + to_float y))))
  | _, _ => Raise TypeError
  end.

(** [a / b]: true division, always a float; the quotient of two ints is
    rounded once. *)
Definition truediv (a b : pyval) : result pyval :=
  match a, b with
  | PyNum x, PyNum y =>
      if Qeq_bool (value y) 0 then Raise ZeroDivisionError
      else
        match x, y with
        | Int n, Int d => Ok (PyNum (Float (binary64 (inject_Z n / inject_Z d))))
        | _, _ => Ok (PyNum (Float (binary64 (to_float x / to_float y))))
        end
  | _, _ => Raise TypeError
  end.

(** [round(v)] with one argument: an int. *)
Definition round (v : pyval) : result Z :=
  match v with
  | PyNum (Int z) => Ok z
  | PyNum (Float q) => Ok (round_half_even q)
  | PyNone => Raise TypeError
  end.

End Py.

Notation "x <- m ;; k" := (Py.bind m (fun x => k))
  (at level 61, m at next level, right associativity).

Import Py.

Local Open Scope string_scope.
Local Open Scope list_scope.
Local Open Scope Z_scope.

(** ** [DMAP/pdf_generator.py]: class [ProductResultsPDFGenerator] *)

Module PdfGenerator.

(** An element of [self.scores].  Only its [total_score] attribute is read;
    [None] here says that the object has no such attribute. *)
Record Score : Type := { total_score : option pyval }.

(** [getattr(score, 'total_score', 0)]. *)
Definition getattr_total_score (score : Score) : pyval :=
  match total_score score with
  | Some v => v
  | None => PyNum (Int 0)
  end.

(** [self.scores] is a list or [None]; [if self.scores:] takes the first
    branch on a list that is not empty. *)
Definition scores_t : Type := option (list Score).

(** *** [get_maturity_level] (lines 370-384) *)

(** Line 373:
    [max(1, min(5, round(score))) if score and score > 0 else 1]. *)
Definition rounded_score (score : pyval) : result Z :=
  positive <- (if truthy score then gt score (PyNum (Int 0)) else Ok false) ;;
  if positive then
    r <- round score ;;
    Ok (Z.max 1 (Z.min 5 r))
  else Ok 1.

(** Lines 375-384. *)
Definition level_description (rounded_score : Z) : string :=
  if rounded_score =? 1 then "Level 1 - Initial"
  else if rounded_score =? 2 then "Level 2 - Developing"
  else if rounded_score =? 3 then "Level 3 - Defined"
  else if rounded_score =? 4 then "Level 4 - Managed"
  else "Level 5 - Optimized".

Definition get_maturity_level (score : pyval) : result string :=
  r <- rounded_score score ;;
  Ok (level_description r).

(** *** [generate_recommendations] (lines 405-438) *)

Definition recommendations_below_2 : list string :=
  [ "Establish basic security policies and procedures";
    "Implement fundamental access controls";
    "Create incident response procedures";
    "Establish regular security training programs" ].

Definition recommendations_below_3 : list string :=
  [ "Document all security processes and procedures";
    "Implement regular security assessments";
    "Establish security metrics and monitoring";
    "Create formal risk management processes" ].

Definition recommendations_below_4 : list string :=
  [ "Implement automated security monitoring";
    "Establish security performance metrics";
    "Create continuous improvement processes";
    "Implement advanced threat detection" ].

Definition recommendations_otherwise : list string :=
  [ "Continue optimizing security processes";
    "Share best practices across the organization";
    "Implement predictive security analytics";
    "Lead industry security initiatives" ].

Definition generate_recommendations (overall_score : pyval) : result (list string) :=
  let recommendations : list string := [] in
  c2 <- lt overall_score (PyNum (Int 2)) ;;
  if c2 then Ok (recommendations ++ recommendations_below_2)
  else
    c3 <- lt overall_score (PyNum (Int 3)) ;;
    if c3 then Ok (recommendations ++ recommendations_below_3)
    else
      c4 <- lt overall_score (PyNum (Int 4)) ;;
      if c4 then Ok (recommendations ++ recommendations_below_4)
      else Ok (recommendations ++ recommendations_otherwise).

(** *** [create_score_visualization] (lines 346-368) *)

(** The rows of a score table: the overall score (printed with one
    decimal) and the maturity level. *)
Record score_table : Type :=
  { overall_maturity_score : pyval;
    maturity_level : string }.

Definition create_score_visualization (overall_score : pyval) : result score_table :=
  level <- get_maturity_level overall_score ;;
  Ok {| overall_maturity_score := overall_score; maturity_level := level |}.

(** *** [create_title_page] (lines 126-146) *)

Definition title_page_overall_score (scores : list Score) : result pyval :=
  st <- for_each
          (fun (st : pyval * Z) (score : Score) =>
             let '(total_score, score_count) := st in
             let score_val := getattr_total_score score in
             legacy <- gt score_val (PyNum (Int 5)) ;;
             normalized_score <-
               (if legacy then truediv score_val (PyNum (Int 20)) else Ok score_val) ;;
             total_score <- add total_score normalized_score ;;
             Ok (total_score, score_count + 1))
          scores (PyNum (Int 0), 0) ;;
  let '(total_score, score_count) := st in
  if 0 <? score_count then truediv total_score (PyNum (Int score_count))
  else Ok (PyNum (Float 1)).

Definition create_title_page (scores : scores_t) : result score_table :=
  match scores with
  | Some ((_ :: _) as l) =>
      overall_score <- title_page_overall_score l ;;
      create_score_visualization overall_score
  | _ => create_score_visualization (PyNum (Float 1))
  end.

(** *** [create_executive_summary] (lines 157-186) *)

Definition executive_summary_avg_score (scores : list Score) : result pyval :=
  st <- for_each
          (fun (st : pyval * Z) (score : Score) =>
             let '(total_score, score_count) := st in
             let score_val := getattr_total_score score in
             legacy <- gt score_val (PyNum (Int 5)) ;;
             normalized_score <-
               (if legacy then truediv score_val (PyNum (Int 20)) else Ok score_val) ;;
             total_score <- add total_score normalized_score ;;
             Ok (total_score, score_count + 1))
          scores (PyNum (Int 0), 0) ;;
  let '(total_score, score_count) := st in
  if 0 <? score_count then truediv total_score (PyNum (Int score_count))
  else Ok (PyNum (Int 0)).

(** The two rows of the metrics table that depend on the scores; nothing
    is added to the page when there are no scores. *)
Definition create_executive_summary (scores : scores_t) : result (option score_table) :=
  match scores with
  | Some ((_ :: _) as l) =>
      avg_score <- executive_summary_avg_score l ;;
      level <- get_maturity_level avg_score ;;
      Ok (Some {| overall_maturity_score := avg_score; maturity_level := level |})
  | _ => Ok None
  end.

(** *** [create_recommendations] (lines 316-342) *)

Definition recommendations_avg_score (scores : list Score) : result pyval :=
  st <- for_each
          (fun (st : pyval * Z) (score : Score) =>
             let '(total_score, score_count) := st in
             let score_val := getattr_total_score score in
             legacy <- gt score_val (PyNum (Int 5)) ;;
             normalized_score <-
               (if legacy then truediv score_val (PyNum (Int 20)) else Ok score_val) ;;
             total_score <- add total_score normalized_score ;;
             Ok (total_score, score_count + 1))
          scores (PyNum (Int 0), 0) ;;
  let '(total_score, score_count) := st in
  if 0 <? score_count then truediv total_score (PyNum (Int score_count))
  else Ok (PyNum (Float 1)).

Definition create_recommendations (scores : scores_t) : result (list string) :=
  match scores with
  | Some ((_ :: _) as l) =>
      avg_score <- recommendations_avg_score l ;;
      generate_recommendations avg_score
  | _ => generate_recommendations (PyNum (Float 1))
  end.

(** *** [create_maturity_level] (lines 482-518) *)

(** Lines 488-493: one raw score brought to the 1-5 scale. *)
Definition normalize (score_val : pyval) : result pyval :=
  legacy <- gt score_val (PyNum (Int 5)) ;;
  if legacy then truediv score_val (PyNum (Int 20)) else Ok score_val.

Definition maturity_level_overall_score (scores : list Score) : result pyval :=
  st <- for_each
          (fun (st : pyval * Z) (score : Score) =>
             let '(total_score, score_count) := st in
             let score_val := getattr_total_score score in
             normalized_score <- normalize score_val ;;
             total_score <- add total_score normalized_score ;;
             Ok (total_score, score_count + 1))
          scores (PyNum (Int 0), 0) ;;
  let '(total_score, score_count) := st in
  if 0 <? score_count then truediv total_score (PyNum (Int score_count))
  else Ok (PyNum (Float 1)).

Inductive maturity_section : Type :=
| MaturityResults (table : score_table)
| NoMaturityData.

Definition create_maturity_level (scores : scores_t) : result maturity_section :=
  match scores with
  | Some ((_ :: _) as l) =>
      overall_score <- maturity_level_overall_score l ;;
      level <- get_maturity_level overall_score ;;
      Ok (MaturityResults
            {| overall_maturity_score := overall_score; maturity_level := level |})
  | _ => Ok NoMaturityData
  end.

End PdfGenerator.

(** ** [DMAP/test_enhanced_roadmap.py]: [test_roadmap_logic] *)

Module TestEnhancedRoadmap.

(** The three lists the test sorts the sub-dimensions into, with the
    captions it prints them under (lines 102-104). *)
Inductive phase : Type :=
| Phase1
| Phase2
| Phase3.

Definition phase_bucket (p : phase) : string :=
  match p with
  | Phase1 => "0-3 months"
  | Phase2 => "3-6 months"
  | Phase3 => "6-12 months"
  end.

(** Lines 95-100: the list a level is appended to, if any. *)
Definition phase_of_level (level : Z) : option phase :=
  if level <=? 2 then Some Phase1
  else if level =? 3 then Some Phase2
  else if level =? 4 then Some Phase3
  else None.

(** The three lists of the test. *)
Record phases : Type :=
  { phase_1_subdims : list string;
    phase_2_subdims : list string;
    phase_3_subdims : list string }.

(** The list kept for a phase (a projection, to state properties of the
    loop for the three lists at once). *)
Definition members (p : phase) (ph : phases) : list string :=
  match p with
  | Phase1 => phase_1_subdims ph
  | Phase2 => phase_2_subdims ph
  | Phase3 => phase_3_subdims ph
  end.

Section Roadmap.

(** [app.get_maturity_level_from_score], whose source is not part of
    the files at hand. *)
Variable get_maturity_level_from_score : Q -> Z.

(** The [append] of lines 96, 98 and 100. *)
Definition add_to_phase (acc : phases) (subdim : string) (p : option phase)
  : phases :=
  match p with
  | Some Phase1 =>
      {| phase_1_subdims := phase_1_subdims acc ++ [subdim];
         phase_2_subdims := phase_2_subdims acc;
         phase_3_subdims := phase_3_subdims acc |}
  | Some Phase2 =>
      {| phase_1_subdims := phase_1_subdims acc;
         phase_2_subdims := phase_2_subdims acc ++ [subdim];
         phase_3_subdims := phase_3_subdims acc |}
  | Some Phase3 =>
      {| phase_1_subdims := phase_1_subdims acc;
         phase_2_subdims := phase_2_subdims acc;
         phase_3_subdims := phase_3_subdims acc ++ [subdim] |}
  | None => acc
  end.

(** Lines 89-100, over the [(subdim, average_score)] items. *)
Definition categorize (subdimension_scores : list (string * Q)) : phases :=
  fold_left
    (fun (acc : phases) (item : string * Q) =>
       let '(subdim, average_score) := item in
       let level := get_maturity_level_from_score average_score in
       add_to_phase acc subdim (phase_of_level level))
    subdimension_scores
    {| phase_1_subdims := []; phase_2_subdims := []; phase_3_subdims := [] |}.

End Roadmap.

End TestEnhancedRoadmap.

Import PdfGenerator.

(** ** The tables of the specification *)

(** The level table of the specification: level number and label. *)
Definition maturity_labels : list (Z * string) :=
  [ (1, "Initial"); (2, "Developing"); (3, "Defined"); (4, "Managed");
    (5, "Optimized") ].

(** The text ["Level N - <label>"] for a one-digit level [N]. *)
Definition level_text (n : Z) (label : string) : string :=
  ("Level " ++ String (Ascii.ascii_of_nat (48 + Z.to_nat n)) "" ++ " - " ++ label)%string.

(** ** [DMAP/pdf_generator.py]: key findings (lines 386-403) *)

Module Findings.

(** [a >= b]. *)
Definition ge (a b : pyval) : result bool :=
  match a, b with
  | PyNum x, PyNum y => Ok (Qle_bool (value y) (value x))
  | _, _ => Raise TypeError
  end.

Definition findings_from_4 : list string :=
  [ "Your organization demonstrates excellent security maturity practices";
    "Continue to maintain and optimize current security processes" ].

Definition findings_from_3 : list string :=
  [ "Your organization has well-defined security processes";
    "Focus on implementing consistent management practices" ].

Definition findings_from_2 : list string :=
  [ "Your organization has basic security processes in place";
    "Work on formalizing and documenting security procedures" ].

Definition findings_otherwise : list string :=
  [ "Your organization needs significant improvement in security practices";
    "Prioritize establishing fundamental security processes" ].

Definition generate_key_findings (overall_score : pyval) : result (list string) :=
  let findings : list string := [] in
  c4 <- ge overall_score (PyNum (Int 4)) ;;
  if c4 then Ok (findings ++ findings_from_4)
  else
    c3 <- ge overall_score (PyNum (Int 3)) ;;
    if c3 then Ok (findings ++ findings_from_3)
    else
      c2 <- ge overall_score (PyNum (Int 2)) ;;
      if c2 then Ok (findings ++ findings_from_2)
      else Ok (findings ++ findings_otherwise).

End Findings.

(** ** [DMAP/pdf_generator.py]: the sections built from [self.responses] *)

Module Responses.

(** A [dict] with string keys: the items in the order the keys were
    inserted. *)
Definition dict (V : Type) : Type := list (string * V).

(** [d.get(k)]. *)
Fixpoint dict_get {V : Type} (k : string) (d : dict V) : option V :=
  match d with
  | [] => None
  | (k', v) :: rest => if String.eqb k' k then Some v else dict_get k rest
  end.

(** [k in d]. *)
Definition dict_mem {V : Type} (k : string) (d : dict V) : bool :=
  match dict_get k d with
  | Some _ => true
  | None => false
  end.

(** The value under [k] changed where it stands.  The code does this only
    under a key that is present ([d[k]] raises [KeyError] otherwise). *)
Fixpoint dict_modify {V : Type} (k : string) (f : V -> V) (d : dict V) : dict V :=
  match d with
  | [] => []
  | (k', v) :: rest =>
      if String.eqb k' k then (k', f v) :: rest
      else (k', v) :: dict_modify k f rest
  end.

(** [d[k] = v]: a new key goes last, a known key keeps its place. *)
Definition dict_set {V : Type} (k : string) (v : V) (d : dict V) : dict V :=
  if dict_mem k d then dict_modify k (fun _ => v) d else d ++ [(k, v)].

(** An element of [self.responses].  [answer] is a string or [None];
    [score] and [client_comment] may be missing altogether (outer [None]). *)
Record Response : Type :=
  { section : string;
    question : string;
    answer : option string;
    score : option pyval;
    client_comment : option (option string) }.

(** [bool(s)] for a string or [None]. *)
Definition str_truthy (s : option string) : bool :=
  match s with
  | Some t => negb (String.eqb t "")
  | None => false
  end.

(** [getattr(r, 'score', None)]. *)
Definition getattr_score (r : Response) : pyval :=
  match score r with
  | Some v => v
  | None => PyNone
  end.

(** Lines 222-226 and 269-273: the responses grouped by section. *)
Definition group_step (sections : dict (list Response)) (response : Response)
  : dict (list Response) :=
  let sections :=
    if negb (dict_mem (section response) sections)
    then dict_set (section response) [] sections
    else sections in
  dict_modify (section response) (fun l => l ++ [response]) sections.

Definition group_by_section (responses : list Response) : dict (list Response) :=
  fold_left group_step responses [].

(** *** [create_executive_summary]: the two counts (lines 159-160) *)

Definition total_questions (responses : list Response) : Z :=
  Z.of_nat (List.length responses).

Definition completed_questions (responses : list Response) : Z :=
  Z.of_nat (List.length (filter (fun r => str_truthy (answer r)) responses)).

(** *** [create_detailed_results] (lines 214-259) *)

(** Lines 232-241: the scores of a section on the 1-5 scale. *)
Definition section_scores (section_responses : list Response) : result (list pyval) :=
  for_each
    (fun (section_scores : list pyval) (r : Response) =>
       let score := getattr_score r in
       match score with
       | PyNone => Ok section_scores
       | _ =>
           legacy <- gt score (PyNum (Int 5)) ;;
           normalized_score <-
             (if legacy then truediv score (PyNum (Int 20)) else Ok score) ;;
           Ok (section_scores ++ [normalized_score])
       end)
    section_responses [].

(** What is printed for a section: its name, its score if it has one, and
    the two numbers of the line "Questions: c/t completed". *)
Record section_summary : Type :=
  { section_name : string;
    avg_section_score : option pyval;
    completed : Z;
    total : Z }.

Section Sum.

(** The built-in [sum] over a list of numbers.  Its floating-point
    algorithm is not the same in all versions of the interpreter, so it is
    left open. *)
Variable py_sum : list pyval -> result pyval.

(** Lines 243-256. *)
Definition summarize_section (name : string) (section_responses : list Response)
  : result section_summary :=
  scores <- section_scores section_responses ;;
  avg <-
    match scores with
    | [] => Ok None
    | _ :: _ =>
        s <- py_sum scores ;;
        a <- truediv s (PyNum (Int (Z.of_nat (List.length scores)))) ;;
        Ok (Some a)
    end ;;
  Ok {| section_name := name;
        avg_section_score := avg;
        completed :=
          Z.of_nat (List.length (filter (fun r => str_truthy (answer r))
                                        section_responses));
        total := Z.of_nat (List.length section_responses) |}.

Definition create_detailed_results (responses : list Response)
  : result (list section_summary) :=
  for_each
    (fun (story : list section_summary) (item : string * list Response) =>
       let '(name, section_responses) := item in
       summary <- summarize_section name section_responses ;;
       Ok (story ++ [summary]))
    (group_by_section responses) [].

End Sum.

(** *** [create_questionnaire_responses] (lines 261-307) *)

(** The paragraphs of the section, spacers left out. *)
Inductive paragraph : Type :=
| SectionHeading (name : string)
| QuestionLine (i : Z) (question : string)
| AnswerLine (answer : string)
| ScoreLine (display_score : pyval)
| CommentLine (comment : string).

(** Lines 280-303: the paragraphs of the [i]-th response of a section.
    What [Paragraph] and the formatting of the score may raise (markup in a
    text that the parser refuses, an int too large for [.1f]) is not
    represented: the statements below are about the case where the method
    returns, on bounded scores. *)
Definition response_paragraphs (i : Z) (response : Response) : result (list paragraph) :=
  let story :=
    [ QuestionLine i (question response);
      AnswerLine (if str_truthy (answer response)
                  then match answer response with Some a => a | None => "" end
                  else "Not answered") ] in
  let score := getattr_score response in
  story <-
    match score with
    | PyNone => Ok story
    | _ =>
        legacy <- gt score (PyNum (Int 5)) ;;
        display_score <-
          (if legacy then truediv score (PyNum (Int 20)) else Ok score) ;;
        Ok (story ++ [ScoreLine display_score])
    end ;;
  match client_comment response with
  | Some (Some c) => if str_truthy (Some c) then Ok (story ++ [CommentLine c]) else Ok story
  | _ => Ok story
  end.

(** Lines 279-305: [for i, response in enumerate(section_responses, 1)]. *)
Definition section_paragraphs (story : list paragraph)
           (section_responses : list Response) : result (list paragraph) :=
  st <- for_each
          (fun (st : list paragraph * Z) (response : Response) =>
             let '(story, i) := st in
             ps <- response_paragraphs i response ;;
             Ok (story ++ ps, i + 1))
          section_responses (story, 1) ;;
  Ok (fst st).

Definition create_questionnaire_responses (responses : list Response)
  : result (list paragraph) :=
  for_each
    (fun (story : list paragraph) (item : string * list Response) =>
       let '(section_name, section_responses) := item in
       section_paragraphs (story ++ [SectionHeading section_name]) section_responses)
    (group_by_section responses) [].

End Responses.

(** ** Floats that are not numbers *)

Module NonFinite.

(** [float('inf')], [float('-inf')] and [float('nan')]. *)
Inductive special : Type :=
| PosInf
| NegInf
| NaN.

(** Whatever [get_maturity_level] may be given: [None] or a finite number,
    or one of the three floats above. *)
Inductive arg : Type :=
| Value (v : pyval)
| Special (s : special).

(** [bool(x)]: the infinities and NaN are not zero. *)
Definition truthy (a : arg) : bool :=
  match a with
  | Value v => Py.truthy v
  | Special _ => true
  end.

(** [x > 0]: every comparison with NaN is false. *)
Definition gt_zero (a : arg) : result bool :=
  match a with
  | Value v => Py.gt v (PyNum (Int 0))
  | Special PosInf => Ok true
  | Special NegInf => Ok false
  | Special NaN => Ok false
  end.

(** [round(x)]: an infinity cannot be converted to an int
    ([OverflowError]), nor can NaN ([ValueError]). *)
Definition round (a : arg) : result Z :=
  match a with
  | Value v => Py.round v
  | Special PosInf => Raise OverflowError
  | Special NegInf => Raise OverflowError
  | Special NaN => Raise ValueError
  end.

(** Line 373 of [get_maturity_level], on any argument. *)
Definition rounded_score (score : arg) : result Z :=
  positive <- (if truthy score then gt_zero score else Ok false) ;;
  if positive then
    r <- round score ;;
    Ok (Z.max 1 (Z.min 5 r))
  else Ok 1.

(** Lines 370-384. *)
Definition get_maturity_level (score : arg) : result string :=
  r <- rounded_score score ;;
  Ok (PdfGenerator.level_description r).

End NonFinite.

(** ** Predicates of the statements *)

(** A magnitude well within the range of the floats: numbers up to it are
    divided and, a few at a time, added without overflow. *)
Definition score_bound : Z := 2 ^ 512.

Definition bounded (n : number) : Prop :=
  (Qabs (value n) <= inject_Z score_bound)%Q.

(** A score object whose [total_score], if a number, is bounded. *)
Definition bounded_score (s : Score) : Prop :=
  forall n : number, total_score s = Some (PyNum n) -> bounded n.

(** A list of at most [2 ^ 52] bounded scores, or [None]. *)
Definition scores_in_bounds (scores : scores_t) : Prop :=
  match scores with
  | Some l => (Z.of_nat (List.length l) <= 2 ^ 52)%Z /\ Forall bounded_score l
  | None => True
  end.

(** A response whose score, if a number, is bounded. *)
Definition bounded_response (r : Responses.Response) : Prop :=
  forall n : number, Responses.getattr_score r = PyNum n -> bounded n.

(** The largest float, [(2 ^ 53 - 1) * 2 ^ 971]. *)
Definition max_float : Q := inject_Z (2 ^ 1024 - 2 ^ 971).


(** A raw score of one of the two scales: 1 to 5, or 20 to 100. *)
Definition in_scale (v : Q) : Prop :=
  (1 <= v /\ v <= 5)%Q \/ (20 <= v /\ v <= 100)%Q.

(** A score object whose [total_score] is [None]. *)
Definition score_is_none (s : Score) : Prop := total_score s = Some PyNone.

(** A score object that holds the int [z]. *)
Definition int_score (z : Z) : Score := {| total_score := Some (PyNum (Int z)) |}.

(** The responses of a section, in the order of the input. *)
Definition responses_of (k : string) (responses : list Responses.Response)
  : list Responses.Response :=
  filter (fun r => String.eqb (Responses.section r) k) responses.

(** The elements of a list in the order of their first occurrence. *)
Fixpoint first_occurrences (l : list string) : list string :=
  match l with
  | [] => []
  | x :: rest => x :: filter (fun y => negb (String.eqb y x)) (first_occurrences rest)
  end.

(** A response that carries a score. *)
Definition has_score (r : Responses.Response) : bool :=
  match Responses.getattr_score r with
  | PyNone => false
  | PyNum _ => true
  end.

(** The question lines of a story: number and question. *)
Definition question_lines (story : list Responses.paragraph) : list (Z * string) :=
  flat_map
    (fun p => match p with
              | Responses.QuestionLine i q => [(i, q)]
              | _ => []
              end)
    story.

(** The questions of some responses, numbered from [i] on. *)
Fixpoint numbered_from (i : Z) (rs : list Responses.Response) : list (Z * string) :=
  match rs with
  | [] => []
  | r :: rest => (i, Responses.question r) :: numbered_from (i + 1) rest
  end.

(** No blank answer or comment line, and no score line without a number. *)
Definition paragraph_ok (p : Responses.paragraph) : Prop :=
  match p with
  | Responses.AnswerLine a => a <> ""
  | Responses.CommentLine c => c <> ""
  | Responses.ScoreLine v => exists n : number, v = PyNum n
  | _ => True
  end.

(** A response and the summary of its section, for the examples. *)
Definition build_response : Responses.Response :=
  {| Responses.section := "Build";
     Responses.question := "Is the build scripted?";
     Responses.answer := Some "Yes";
     Responses.score := None;
     Responses.client_comment := None |}.

Definition build_summary : Responses.section_summary :=
  {| Responses.section_name := "Build";
     Responses.avg_section_score := None;
     Responses.completed := 1;
     Responses.total := 1 |}.

(** The scores printed in a story. *)
Definition score_lines (story : list Responses.paragraph) : list pyval :=
  flat_map
    (fun p => match p with
              | Responses.ScoreLine v => [v]
              | _ => []
              end)
    story.

(** The answers and the comments printed in a story. *)
Definition answer_lines (story : list Responses.paragraph) : list string :=
  flat_map
    (fun p => match p with
              | Responses.AnswerLine a => [a]
              | _ => []
              end)
    story.

Definition comment_lines (story : list Responses.paragraph) : list string :=
  flat_map
    (fun p => match p with
              | Responses.CommentLine c => [c]
              | _ => []
              end)
    story.

(** The answer to print for a response: its answer, or "Not answered" when
    the answer is [None] or empty. *)
Definition answer_text (r : Responses.Response) : string :=
  match Responses.answer r with
  | Some a => if String.eqb a "" then "Not answered" else a
  | None => "Not answered"
  end.

(** The comment to print for a response, if any: a comment that is there
    and not empty. *)
Definition comment_texts (r : Responses.Response) : list string :=
  match Responses.client_comment r with
  | Some (Some c) => if String.eqb c "" then [] else [c]
  | _ => []
  end.

(** A second response of the same section, with a score on the legacy
    scale, no answer and a comment; and the story of the two. *)
Definition scored_response : Responses.Response :=
  {| Responses.section := "Build";
     Responses.question := "Are the builds reproducible?";
     Responses.answer := None;
     Responses.score := Some (PyNum (Int 80));
     Responses.client_comment := Some (Some "Nightly") |}.

Definition build_story : list Responses.paragraph :=
  [ Responses.SectionHeading "Build";
    Responses.QuestionLine 1 "Is the build scripted?";
    Responses.AnswerLine "Yes";
    Responses.QuestionLine 2 "Are the builds reproducible?";
    Responses.AnswerLine "Not answered";
    Responses.ScoreLine (PyNum (Float 4));
    Responses.CommentLine "Nightly" ].

(** ** Properties of the runtime model *)

(** Comparison of two rational literals. *)
Ltac qcmp := unfold Qle, Qlt; simpl; lia.


Section Rounding.

Local Open Scope Q_scope.

Lemma Qle_bool_false (a b : Q) : Qle_bool a b = false -> b < a.
Proof.
  intros H. apply Qnot_le_lt. intros Hle.
  apply Qle_bool_iff in Hle. congruence.
Qed.


Lemma round_half_even_floor (q : Q) :
  (Qfloor q <= round_half_even q <= Qfloor q + 1)%Z.
Proof.
  unfold round_half_even.
  destruct (q - inject_Z (Qfloor q) ?= 1 # 2); try destruct (Z.even _); lia.
Qed.

(** The rounding is at most one half away. *)
Lemma round_half_even_nearest (q : Q) :
  Qabs (q - inject_Z (round_half_even q)) <= 1 # 2.
Proof.
  pose proof (Qfloor_le q) as Hlo. pose proof (Qlt_floor q) as Hhi.
  rewrite inject_Z_plus in Hhi. change (inject_Z 1) with 1 in Hhi.
  unfold round_half_even.
  destruct (Qcompare_spec (q - inject_Z (Qfloor q)) (1 # 2)) as [H | H | H];
    try destruct (Z.even (Qfloor q));
    rewrite ?inject_Z_plus; change (inject_Z 1) with 1;
    apply Qabs_Qle_condition; split; lra.
Qed.

(** An integer is its own rounding. *)
Lemma round_half_even_Z (z : Z) : round_half_even (inject_Z z) = z.
Proof.
  unfold round_half_even. rewrite Qfloor_Z.
  destruct (Qcompare_spec (inject_Z z - inject_Z z) (1 # 2)) as [H | H | H].
  - exfalso. lra.
  - reflexivity.
  - exfalso. lra.
Qed.

Lemma round_half_even_lower (n : Z) (q : Q) :
  inject_Z n <= q -> (n <= round_half_even q)%Z.
Proof.
  intros H. apply Qfloor_resp_le in H. rewrite Qfloor_Z in H.
  pose proof (round_half_even_floor q). lia.
Qed.

Lemma round_half_even_upper (n : Z) (q : Q) :
  q <= inject_Z n -> (round_half_even q <= n)%Z.
Proof.
  intros H.
  destruct (Z_lt_le_dec (Qfloor q) n) as [Hlt | Hge].
  - pose proof (round_half_even_floor q). lia.
  - assert (Hq : q == inject_Z n).
    { apply Qle_antisym; [exact H |].
      apply Qle_trans with (inject_Z (Qfloor q)); [| apply Qfloor_le].
      rewrite <- Zle_Qle. exact Hge. }
    unfold round_half_even.
    assert (Hf : Qfloor q = n) by (rewrite Hq; apply Qfloor_Z).
    rewrite Hf.
    destruct (Qcompare_spec (q - inject_Z n) (1 # 2)) as [H1 | H1 | H1].
    + exfalso. lra.
    + lia.
    + exfalso. lra.
Qed.

(** Rounding to the nearest integer is monotone. *)
Lemma round_half_even_mono (p q : Q) :
  p <= q -> (round_half_even p <= round_half_even q)%Z.
Proof.
  intros H.
  pose proof (Qfloor_resp_le _ _ H) as Hfl.
  destruct (Z.eq_dec (Qfloor p) (Qfloor q)) as [Heq | Hne].
  - unfold round_half_even. rewrite Heq.
    destruct (Qcompare_spec (p - inject_Z (Qfloor q)) (1 # 2)) as [H1 | H1 | H1];
      destruct (Qcompare_spec (q - inject_Z (Qfloor q)) (1 # 2)) as [H2 | H2 | H2];
      try destruct (Z.even (Qfloor q)); try lia; exfalso; lra.
  - pose proof (round_half_even_floor p). pose proof (round_half_even_floor q). lia.
Qed.

End Rounding.

Section Binary64.

Local Open Scope Q_scope.

(** A power of two with an exponent split as a difference. *)
Lemma Qpower2_minus (n m : Z) :
  (0 <= n)%Z -> (0 <= m)%Z ->
  2 ^ (n - m) == inject_Z (2 ^ n) / inject_Z (2 ^ m).
Proof.
  intros Hn Hm.
  rewrite Qpower_minus by (intros H; discriminate H).
  rewrite 2 Zpower_Qpower by assumption. reflexivity.
Qed.

(** [ilog2 q] is the exponent of the binade of [q]. *)
Lemma ilog2_spec (q : Q) :
  0 < q -> 2 ^ ilog2 q <= q /\ q < 2 ^ (ilog2 q + 1).
Proof.
  destruct q as [a d]. intros Hpos.
  assert (Ha : (0 < a)%Z).
  { unfold Qlt in Hpos. simpl in Hpos. lia. }
  pose proof (Z.log2_spec a Ha) as [Ha1 Ha2].
  pose proof (Z.log2_spec (Zpos d) (Pos2Z.is_pos d)) as [Hd1 Hd2].
  pose proof (Z.log2_nonneg a) as Hla.
  pose proof (Z.log2_nonneg (Zpos d)) as Hld.
  set (la := Z.log2 a) in *. set (ld := Z.log2 (Zpos d)) in *.
  assert (HA : (0 < 2 ^ la)%Z) by (apply Z.pow_pos_nonneg; lia).
  assert (HD : (0 < 2 ^ ld)%Z) by (apply Z.pow_pos_nonneg; lia).
  assert (HA' : (2 ^ Z.succ la = 2 * 2 ^ la)%Z) by (apply Z.pow_succ_r; lia).
  assert (HD' : (2 ^ Z.succ ld = 2 * 2 ^ ld)%Z) by (apply Z.pow_succ_r; lia).
  assert (Hbelow : 2 ^ (la - ld - 1) < a # d).
  { replace (la - ld - 1)%Z with (la - Z.succ ld)%Z by lia.
    rewrite Qpower2_minus by lia.
    apply Qlt_shift_div_r.
    - change (inject_Z 0 < inject_Z (2 ^ Z.succ ld)). rewrite <- Zlt_Qlt. lia.
    - unfold Qlt, Qmult, inject_Z. simpl. nia. }
  assert (Habove : a # d < 2 ^ (la - ld + 1)).
  { replace (la - ld + 1)%Z with (Z.succ la - ld)%Z by lia.
    rewrite Qpower2_minus by lia.
    apply Qlt_shift_div_l.
    - change (inject_Z 0 < inject_Z (2 ^ ld)). rewrite <- Zlt_Qlt. lia.
    - unfold Qlt, Qmult, inject_Z. simpl. nia. }
  unfold ilog2. cbn [Qnum Qden]. fold la ld.
  destruct (Qle_bool (2 ^ (la - ld)) (a # d)) eqn:E.
  - apply Qle_bool_iff in E. split; assumption.
  - apply Qle_bool_false in E.
    replace (la - ld - 1 + 1)%Z with (la - ld)%Z by lia.
    split; [apply Qlt_le_weak; exact Hbelow | exact E].
Qed.

Lemma ilog2_upper (q : Q) (n : Z) :
  0 < q -> (0 <= n)%Z -> q <= inject_Z (2 ^ n) -> (ilog2 q <= n)%Z.
Proof.
  destruct q as [a d]. intros Hpos Hn Hle.
  assert (Ha : (0 < a)%Z).
  { unfold Qlt in Hpos. simpl in Hpos. lia. }
  assert (Hlog : (Z.log2 a - Z.log2 (Zpos d) <= n)%Z).
  { unfold Qle in Hle. simpl in Hle.
    assert (Hm : (a <= Zpos d * 2 ^ n)%Z) by lia.
    apply Z.log2_le_mono in Hm.
    rewrite Z.log2_mul_pow2 in Hm by lia. lia. }
  unfold ilog2. cbn [Qnum Qden].
  destruct (Qle_bool _ _); lia.
Qed.

(** Two integers of at most 52 bits that enclose the exact result also
    enclose the rounded one. *)
Lemma binary64_between (a b : Z) (q : Q) :
  (0 < a)%Z -> (b <= 2 ^ 52)%Z ->
  inject_Z a <= q -> q <= inject_Z b ->
  inject_Z a <= binary64 q /\ binary64 q <= inject_Z b.
Proof.
  intros Ha Hb Haq Hqb.
  assert (Hpos : 0 < q).
  { apply Qlt_le_trans with (inject_Z a); [| exact Haq].
    change (inject_Z 0 < inject_Z a). rewrite <- Zlt_Qlt. exact Ha. }
  unfold binary64.
  destruct (Qeq_bool q 0) eqn:Hz.
  { apply Qeq_bool_eq in Hz. exfalso. lra. }
  assert (Habs : Qabs q = q).
  { destruct q as [[| p | p] d]; try reflexivity;
      unfold Qlt in Hpos; simpl in Hpos; lia. }
  rewrite Habs.
  assert (Hlog : (ilog2 q <= 52)%Z).
  { apply ilog2_upper; [exact Hpos | lia |].
    apply Qle_trans with (inject_Z b); [exact Hqb |].
    rewrite <- Zle_Qle. exact Hb. }
  set (e := Z.max (ilog2 q - 52) (-1074)).
  assert (He : (e <= 0)%Z) by (unfold e; lia).
  set (K := (2 ^ (- e))%Z).
  assert (HK : (0 < K)%Z) by (unfold K; apply Z.pow_pos_nonneg; lia).
  assert (HKQ : 0 < inject_Z K).
  { change (inject_Z 0 < inject_Z K). rewrite <- Zlt_Qlt. exact HK. }
  assert (HP : 2 ^ e == / inject_Z K).
  { unfold K. rewrite Zpower_Qpower by lia.
    replace e with (- (- e))%Z at 1 by lia.
    apply Qpower_opp. }
  assert (Hdiv : q / 2 ^ e == q * inject_Z K).
  { unfold Qdiv. rewrite HP. rewrite Qinv_involutive. reflexivity. }
  assert (Hlo : (a * K <= round_half_even (q / 2 ^ e))%Z).
  { apply round_half_even_lower. rewrite Hdiv, inject_Z_mult.
    apply Qmult_le_r; assumption. }
  assert (Hhi : (round_half_even (q / 2 ^ e) <= b * K)%Z).
  { apply round_half_even_upper. rewrite Hdiv, inject_Z_mult.
    apply Qmult_le_r; assumption. }
  rewrite Zle_Qle, inject_Z_mult in Hlo, Hhi.
  set (m := round_half_even (q / 2 ^ e)) in *.
  split; rewrite Qred_correct, HP.
  - apply Qle_shift_div_l; assumption.
  - apply Qle_shift_div_r; assumption.
Qed.

(** The rounding agrees with the floats of the interpreter: the literals
    [0.1] and [4.1], the sum [0.1 + 0.2], and a value that needs no
    rounding. *)
Example binary64_tenth :
  binary64 (1 # 10) = 3602879701896397 # 36028797018963968.
Proof. vm_compute. reflexivity. Qed.

Example binary64_sum :
  binary64 (binary64 (1 # 10) + binary64 (2 # 10)) =
  1351079888211149 # 4503599627370496.
Proof. vm_compute. reflexivity. Qed.

Example binary64_4_1 :
  binary64 (82 / 20) = 2308094809027379 # 562949953421312.
Proof. vm_compute. reflexivity. Qed.

Example binary64_exact : binary64 (5 # 2) = 5 # 2.
Proof. vm_compute. reflexivity. Qed.

End Binary64.

(** ** Properties of the operators *)

Section Operators.

Local Open Scope Q_scope.

Lemma gt_true (x y : number) :
  value y < value x -> gt (PyNum x) (PyNum y) = Ok true.
Proof.
  intros H. unfold gt.
  destruct (Qle_bool (value x) (value y)) eqn:E; [| reflexivity].
  apply Qle_bool_iff in E. exfalso. lra.
Qed.

Lemma gt_false (x y : number) :
  value x <= value y -> gt (PyNum x) (PyNum y) = Ok false.
Proof.
  intros H. unfold gt. apply Qle_bool_iff in H. rewrite H. reflexivity.
Qed.

Lemma round_value (n : number) :
  round (PyNum n) = Ok (round_half_even (value n)).
Proof.
  destruct n as [z | q]; simpl; [rewrite round_half_even_Z |]; reflexivity.
Qed.

Lemma to_float_20 : to_float (Int 20) = 20.
Proof. vm_compute. reflexivity. Qed.

(** Division by the int 20 rounds the exact quotient once. *)
Lemma truediv_20 (r : number) :
  truediv (PyNum r) (PyNum (Int 20)) = Ok (PyNum (Float (binary64 (value r / 20)))).
Proof.
  unfold truediv.
  change (Qeq_bool (value (Int 20)) 0) with false. cbv iota.
  destruct r as [z | q]; [reflexivity |].
  rewrite to_float_20. reflexivity.
Qed.

End Operators.

(** ** The score normaliser *)

Section Normalizer.

Local Open Scope Q_scope.

Lemma normalize_same (r : number) :
  value r <= 5 -> normalize (PyNum r) = Ok (PyNum r).
Proof.
  intros H. unfold normalize. rewrite gt_false by exact H. reflexivity.
Qed.

Lemma normalize_legacy (r : number) :
  5 < value r -> normalize (PyNum r) = truediv (PyNum r) (PyNum (Int 20)).
Proof.
  intros H. unfold normalize. rewrite gt_true by exact H. reflexivity.
Qed.

(** C3.  For every raw score [r >= 0], a float or an int up to the largest
    float, the normaliser returns [r] itself when [r <= 5] and the quotient
    [r / 20] (Python's true division: the exact quotient rounded to a
    float) when [r > 5]. *)
Theorem normalize_by_scale (r : number) :
  0 <= value r -> value r <= max_float ->
  (value r <= 5 -> normalize (PyNum r) = Ok (PyNum r)) /\
  (5 < value r ->
   normalize (PyNum r) = truediv (PyNum r) (PyNum (Int 20)) /\
   normalize (PyNum r) = Ok (PyNum (Float (binary64 (value r / 20))))).
Proof.
  intros _ _. split; intros H.
  - apply normalize_same. exact H.
  - split; [apply normalize_legacy; exact H |].
    rewrite normalize_legacy by exact H. apply truediv_20.
Qed.

Lemma normalize_by_scale_witness :
  0 <= value (Int 82) /\ value (Int 82) <= max_float /\ 5 < value (Int 82) /\
  normalize (PyNum (Int 82)) = truediv (PyNum (Int 82)) (PyNum (Int 20)) /\
  normalize (PyNum (Int 82)) = Ok (PyNum (Float (binary64 (value (Int 82) / 20)))).
Proof.
  assert (H0 : 0 <= value (Int 82)) by qcmp.
  assert (Hm : value (Int 82) <= max_float).
  { vm_compute. discriminate. }
  assert (H5 : 5 < value (Int 82)) by qcmp.
  split; [exact H0 |]. split; [exact Hm |]. split; [exact H5 |].
  exact (proj2 (normalize_by_scale (Int 82) H0 Hm) H5).
Defined.

(** The examples of the specification: 100 and 20 on the legacy scale,
    and a score already on the 1-5 scale. *)
Example normalize_100 : normalize (PyNum (Int 100)) = Ok (PyNum (Float 5)).
Proof. vm_compute. reflexivity. Qed.

Example normalize_20 : normalize (PyNum (Int 20)) = Ok (PyNum (Float 1)).
Proof. vm_compute. reflexivity. Qed.

Example normalize_5 : normalize (PyNum (Float 5)) = Ok (PyNum (Float 5)).
Proof. vm_compute. reflexivity. Qed.

(** C1, as stated, fails: the raw score 10 lies in (5, 100] and its
    normalised value 0.5 is below 1.0, nothing clamps it. *)
Lemma normalize_not_clamped :
  5 < value (Int 10) /\ value (Int 10) <= 100 /\
  normalize (PyNum (Int 10)) = Ok (PyNum (Float (1 # 2))) /\
  ~ 1 <= value (Float (1 # 2)).
Proof.
  split; [qcmp |]. split; [qcmp |].
  split; [vm_compute; reflexivity |].
  unfold value. intros H. revert H. qcmp.
Qed.

(** C1, amended.  The normaliser does not clamp; the normalised score lies
    in [1.0, 5.0] for every raw score in [1, 5] (returned as it is) and
    for every raw score in [20, 100] (divided by 20). *)
Theorem normalize_range (r : number) :
  (1 <= value r /\ value r <= 5) \/ (20 <= value r /\ value r <= 100) ->
  exists m : number,
    normalize (PyNum r) = Ok (PyNum m) /\ 1 <= value m /\ value m <= 5.
Proof.
  intros [[Hlo Hhi] | [Hlo Hhi]].
  - exists r. rewrite normalize_same by exact Hhi. auto.
  - exists (Float (binary64 (value r / 20))).
    split; [rewrite normalize_legacy by lra; apply truediv_20 |].
    cbn [value].
    apply (binary64_between 1 5); try lia.
    + apply Qle_shift_div_l; [reflexivity |].
      change (inject_Z 1 * 20) with 20. exact Hlo.
    + apply Qle_shift_div_r; [reflexivity |].
      change (inject_Z 5 * 20) with 100. exact Hhi.
Qed.

Lemma normalize_range_witness :
  ((1 <= value (Int 82) /\ value (Int 82) <= 5) \/
   (20 <= value (Int 82) /\ value (Int 82) <= 100)) /\
  exists m : number,
    normalize (PyNum (Int 82)) = Ok (PyNum m) /\ 1 <= value m /\ value m <= 5.
Proof.
  assert (H : (1 <= value (Int 82) /\ value (Int 82) <= 5) \/
              (20 <= value (Int 82) /\ value (Int 82) <= 100)).
  { right. split; qcmp. }
  split; [exact H | exact (normalize_range (Int 82) H)].
Defined.

End Normalizer.

(** ** The maturity classifier *)

Section Classifier.

Local Open Scope Q_scope.

Lemma rounded_score_positive (n : number) :
  0 < value n ->
  rounded_score (PyNum n) = Ok (Z.max 1 (Z.min 5 (round_half_even (value n)))).
Proof.
  intros H. unfold rounded_score, truthy.
  destruct (Qeq_bool (value n) 0) eqn:E.
  { apply Qeq_bool_eq in E. exfalso. lra. }
  cbn [negb]. rewrite gt_true by exact H.
  cbn [bind]. rewrite round_value. reflexivity.
Qed.

Lemma rounded_score_nonpositive (n : number) :
  value n <= 0 -> rounded_score (PyNum n) = Ok 1%Z.
Proof.
  intros H. unfold rounded_score, truthy.
  destruct (Qeq_bool (value n) 0); cbn [negb]; [reflexivity |].
  rewrite gt_false by exact H. reflexivity.
Qed.

(** The rounded score is always one of the five levels. *)
Lemma rounded_score_range (score : pyval) :
  exists l : Z, rounded_score score = Ok l /\ (1 <= l <= 5)%Z.
Proof.
  destruct score as [| n].
  - exists 1%Z. split; [reflexivity | lia].
  - destruct (Qlt_le_dec 0 (value n)) as [H | H].
    + eexists. split; [apply rounded_score_positive; exact H | lia].
    + exists 1%Z. split; [apply rounded_score_nonpositive; exact H | lia].
Qed.

(** No input that is [None] or a finite number makes [get_maturity_level]
    raise. *)
Lemma get_maturity_level_total (score : pyval) :
  exists s : string, get_maturity_level score = Ok s.
Proof.
  destruct (rounded_score_range score) as [l [Hl _]].
  exists (level_description l). unfold get_maturity_level. rewrite Hl. reflexivity.
Qed.

(** C2, on the code: [round] sends a tie to the even neighbour, so 2.5 is
    classified as level 2 and 4.5 as level 4 (the expected table of
    [test_maturity_level_mapping] has 3 and 5 there); 1.5 and 3.5 go up,
    to 2 and 4. *)
Theorem get_maturity_level_midpoints :
  get_maturity_level (PyNum (Float (3 # 2))) = Ok "Level 2 - Developing" /\
  get_maturity_level (PyNum (Float (5 # 2))) = Ok "Level 2 - Developing" /\
  get_maturity_level (PyNum (Float (7 # 2))) = Ok "Level 4 - Managed" /\
  get_maturity_level (PyNum (Float (9 # 2))) = Ok "Level 4 - Managed".
Proof. repeat split; vm_compute; reflexivity. Qed.

(** C7.  Whatever the score, [get_maturity_level] returns the text
    ["Level N - <label>"] where [N] is the rounded score and [<label>] is
    the entry of the five-entry table for [N]; and each of the five
    entries is returned for the score [N] itself. *)
Theorem get_maturity_level_label :
  (forall score : pyval,
      exists (n : Z) (label : string),
        In (n, label) maturity_labels /\
        rounded_score score = Ok n /\
        get_maturity_level score = Ok (level_text n label)) /\
  Forall (fun entry : Z * string =>
            get_maturity_level (PyNum (Int (fst entry))) =
              Ok (level_text (fst entry) (snd entry)))
         maturity_labels.
Proof.
  split.
  - intros score.
    destruct (rounded_score_range score) as [l [Hl Hrange]].
    unfold get_maturity_level. rewrite Hl. cbn [bind].
    assert (Hcases : (l = 1 \/ l = 2 \/ l = 3 \/ l = 4 \/ l = 5)%Z) by lia.
    destruct Hcases as [-> | [-> | [-> | [-> | ->]]]].
    + exists 1%Z, "Initial". simpl. auto.
    + exists 2%Z, "Developing". simpl. auto.
    + exists 3%Z, "Defined". simpl. auto 6.
    + exists 4%Z, "Managed". simpl. auto 7.
    + exists 5%Z, "Optimized". simpl. auto 8.
  - repeat constructor.
Qed.

(** C8.  On [1, 5] the classifier is monotone: a larger score never gets
    a smaller level. *)
Theorem get_maturity_level_monotone (x y : number) :
  1 <= value x -> value x <= value y -> value y <= 5 ->
  exists lx ly : Z,
    rounded_score (PyNum x) = Ok lx /\
    rounded_score (PyNum y) = Ok ly /\
    get_maturity_level (PyNum x) = Ok (level_description lx) /\
    get_maturity_level (PyNum y) = Ok (level_description ly) /\
    (lx <= ly)%Z.
Proof.
  intros H1 Hxy H5.
  assert (Hx : 0 < value x) by lra.
  assert (Hy : 0 < value y) by lra.
  pose proof (round_half_even_mono _ _ Hxy) as Hmono.
  exists (Z.max 1 (Z.min 5 (round_half_even (value x)))),
         (Z.max 1 (Z.min 5 (round_half_even (value y)))).
  unfold get_maturity_level.
  rewrite (rounded_score_positive x Hx), (rounded_score_positive y Hy).
  repeat split; lia.
Qed.

Lemma get_maturity_level_monotone_witness :
  1 <= value (Float (5 # 2)) /\
  value (Float (5 # 2)) <= value (Int 3) /\
  value (Int 3) <= 5 /\
  exists lx ly : Z,
    rounded_score (PyNum (Float (5 # 2))) = Ok lx /\
    rounded_score (PyNum (Int 3)) = Ok ly /\
    get_maturity_level (PyNum (Float (5 # 2))) = Ok (level_description lx) /\
    get_maturity_level (PyNum (Int 3)) = Ok (level_description ly) /\
    (lx <= ly)%Z.
Proof.
  repeat (split; [qcmp |]).
  apply (get_maturity_level_monotone (Float (5 # 2)) (Int 3)); qcmp.
Defined.

(** The five texts are distinct, so the order of the levels can be read
    off the returned text. *)
Lemma level_description_injective (l l' : Z) :
  (1 <= l <= 5)%Z -> (1 <= l' <= 5)%Z ->
  level_description l = level_description l' -> l = l'.
Proof.
  intros H H' E.
  assert (Hc : (l = 1 \/ l = 2 \/ l = 3 \/ l = 4 \/ l = 5)%Z) by lia.
  assert (Hc' : (l' = 1 \/ l' = 2 \/ l' = 3 \/ l' = 4 \/ l' = 5)%Z) by lia.
  destruct Hc as [-> | [-> | [-> | [-> | ->]]]];
    destruct Hc' as [-> | [-> | [-> | [-> | ->]]]];
    try reflexivity; vm_compute in E; discriminate E.
Qed.

(** [None], zero and every negative finite number are classified as
    level 1; nothing is raised. *)
Lemma get_maturity_level_floor (score : pyval) :
  score = PyNone \/ (exists n : number, score = PyNum n /\ value n <= 0) ->
  get_maturity_level score = Ok "Level 1 - Initial".
Proof.
  intros [-> | [n [-> H]]].
  - reflexivity.
  - unfold get_maturity_level.
    rewrite rounded_score_nonpositive by exact H. reflexivity.
Qed.

Example get_maturity_level_None : get_maturity_level PyNone = Ok "Level 1 - Initial".
Proof. reflexivity. Qed.

Example get_maturity_level_zero :
  get_maturity_level (PyNum (Int 0)) = Ok "Level 1 - Initial" /\
  get_maturity_level (PyNum (Float 0)) = Ok "Level 1 - Initial".
Proof. split; reflexivity. Qed.

End Classifier.

(** ** Recommendations *)

Section Recommendations.

Local Open Scope Q_scope.

Lemma lt_true (x y : number) :
  value x < value y -> lt (PyNum x) (PyNum y) = Ok true.
Proof. intros H. unfold lt. apply gt_true. exact H. Qed.

Lemma lt_false (x y : number) :
  value y <= value x -> lt (PyNum x) (PyNum y) = Ok false.
Proof. intros H. unfold lt. apply gt_false. exact H. Qed.

(** C6.  [generate_recommendations] returns one of four fixed lists,
    chosen by the thresholds 2, 3 and 4, and the four lists differ. *)
Theorem generate_recommendations_tiers :
  (forall s : number,
      (value s < 2 /\
       generate_recommendations (PyNum s) = Ok recommendations_below_2) \/
      ((2 <= value s /\ value s < 3) /\
       generate_recommendations (PyNum s) = Ok recommendations_below_3) \/
      ((3 <= value s /\ value s < 4) /\
       generate_recommendations (PyNum s) = Ok recommendations_below_4) \/
      (4 <= value s /\
       generate_recommendations (PyNum s) = Ok recommendations_otherwise)) /\
  NoDup [ recommendations_below_2; recommendations_below_3;
          recommendations_below_4; recommendations_otherwise ].
Proof.
  split.
  - intros s. unfold generate_recommendations.
    change (value s < 2) with (value s < value (Int 2)).
    change (2 <= value s) with (value (Int 2) <= value s).
    change (value s < 3) with (value s < value (Int 3)).
    change (3 <= value s) with (value (Int 3) <= value s).
    change (value s < 4) with (value s < value (Int 4)).
    change (4 <= value s) with (value (Int 4) <= value s).
    destruct (Qlt_le_dec (value s) (value (Int 2))) as [H2 | H2].
    { left. rewrite (lt_true _ _ H2). auto. }
    rewrite (lt_false _ _ H2). cbn [bind].
    destruct (Qlt_le_dec (value s) (value (Int 3))) as [H3 | H3].
    { right; left. rewrite (lt_true _ _ H3). auto. }
    rewrite (lt_false _ _ H3). cbn [bind].
    destruct (Qlt_le_dec (value s) (value (Int 4))) as [H4 | H4].
    { right; right; left. rewrite (lt_true _ _ H4). auto. }
    rewrite (lt_false _ _ H4). cbn [bind].
    right; right; right. auto.
  - repeat constructor; simpl; intuition discriminate.
Qed.

(** A score that is not a number cannot be compared. *)
Example generate_recommendations_None :
  generate_recommendations PyNone = Raise TypeError.
Proof. reflexivity. Qed.

End Recommendations.

(** ** Phase buckets *)

Section Phases.

Import TestEnhancedRoadmap.

(** C5.  Levels 1 and 2 fall in "0-3 months", level 3 in "3-6 months",
    level 4 in "6-12 months"; the three buckets are distinct and level 5
    falls in none. *)
Theorem phase_of_level_buckets :
  option_map phase_bucket (phase_of_level 1) = Some "0-3 months" /\
  option_map phase_bucket (phase_of_level 2) = Some "0-3 months" /\
  option_map phase_bucket (phase_of_level 3) = Some "3-6 months" /\
  option_map phase_bucket (phase_of_level 4) = Some "6-12 months" /\
  NoDup [ phase_bucket Phase1; phase_bucket Phase2; phase_bucket Phase3 ] /\
  phase_of_level 5 = None.
Proof.
  repeat (split; [reflexivity |]).
  split; [| reflexivity].
  repeat constructor; simpl; intuition discriminate.
Qed.

Section Loop.

Variable get_maturity_level_from_score : Q -> Z.

Lemma add_to_phase_members (p : phase) (acc : phases) (subdim : string)
      (o : option phase) (name : string) :
  In name (members p (add_to_phase acc subdim o)) <->
  In name (members p acc) \/ (o = Some p /\ subdim = name).
Proof.
  destruct o as [[| |] |]; destruct p; simpl;
    rewrite ?in_app_iff; simpl; intuition congruence.
Qed.

(** Nothing is ever removed from a list. *)
Lemma fold_add_to_phase_keeps (p : phase) (name : string)
      (items : list (string * Q)) (acc : phases) :
  In name (members p acc) ->
  In name
    (members p
       (fold_left
          (fun (acc : phases) (item : string * Q) =>
             let '(subdim, average_score) := item in
             let level := get_maturity_level_from_score average_score in
             add_to_phase acc subdim (phase_of_level level))
          items acc)).
Proof.
  revert acc. induction items as [| [s a] rest IH]; intros acc Hin.
  - exact Hin.
  - cbn [fold_left]. apply IH.
    apply add_to_phase_members. left. exact Hin.
Qed.

(** A sub-dimension is put on the list of a phase exactly when its
    level falls in that phase. *)
Lemma categorize_members (p : phase) (items : list (string * Q)) (name : string) :
  In name (members p (categorize get_maturity_level_from_score items)) <->
  exists average_score : Q,
    In (name, average_score) items /\
    phase_of_level (get_maturity_level_from_score average_score) = Some p.
Proof.
  unfold categorize.
  set (empty := {| phase_1_subdims := []; phase_2_subdims := [];
                   phase_3_subdims := [] |}).
  assert (Hempty : ~ In name (members p empty)) by (destruct p; simpl; tauto).
  revert Hempty. generalize empty. clear empty.
  induction items as [| [subdim avg] rest IH]; intros acc.
  - simpl. intros Hacc. split; [tauto | intros [a [[] _]]].
  - intros Hacc. cbn [fold_left].
    set (acc' := add_to_phase acc subdim _).
    destruct (in_dec string_dec name (members p acc')) as [Hin | Hout].
    + assert (Hhere : phase_of_level (get_maturity_level_from_score avg) = Some p
                      /\ subdim = name).
      { apply add_to_phase_members in Hin. tauto. }
      split.
      * intros _. exists avg. destruct Hhere as [Hp ->]. simpl. auto.
      * intros _. apply fold_add_to_phase_keeps. exact Hin.
    + rewrite (IH acc' Hout).
      split; intros [a [Ha Hp]]; exists a.
      * split; [right; exact Ha | exact Hp].
      * split; [| exact Hp].
        destruct Ha as [Heq | Ha]; [| exact Ha].
        exfalso. apply Hout. apply add_to_phase_members. right.
        inversion Heq; subst. auto.
Qed.

End Loop.

End Phases.

(** ** The overall score of the three report sections *)

Section OverallScore.

Lemma for_each_count {A : Type} (body : pyval * Z -> A -> result (pyval * Z)) :
  (forall t c x t' c', body (t, c) x = Ok (t', c') -> c' = c + 1) ->
  forall xs t c t' c',
    for_each body xs (t, c) = Ok (t', c') -> c' = c + Z.of_nat (List.length xs).
Proof.
  intros Hbody xs. induction xs as [| x rest IH]; intros t c t' c' H.
  - simpl in H. injection H as _ Hc. cbn [List.length]. lia.
  - cbn [for_each] in H.
    destruct (body (t, c) x) as [[t1 c1] | e] eqn:E; [| discriminate H].
    cbn [bind] in H.
    apply Hbody in E. apply IH in H.
    rewrite H, E. cbn [List.length]. lia.
Qed.

Lemma for_each_ext {S A : Type} (body body' : S -> A -> result S) :
  (forall s x, body s x = body' s x) ->
  forall xs s, for_each body xs s = for_each body' xs s.
Proof.
  intros Hext xs. induction xs as [| x rest IH]; intros s.
  - reflexivity.
  - cbn [for_each]. rewrite Hext.
    destruct (body' s x) as [s' | e]; [apply IH | reflexivity].
Qed.

(** One turn of the loop counts one score. *)
Lemma loop_body_counts (t : pyval) (c : Z) (score : Score) (t' : pyval) (c' : Z) :
  (let score_val := getattr_total_score score in
   legacy <- gt score_val (PyNum (Int 5)) ;;
   normalized_score <-
     (if legacy then truediv score_val (PyNum (Int 20)) else Ok score_val) ;;
   total_score <- add t normalized_score ;;
   Ok (total_score, c + 1)) = Ok (t', c') ->
  c' = c + 1.
Proof.
  cbv zeta.
  destruct (gt (getattr_total_score score) (PyNum (Int 5))) as [legacy | e];
    [| discriminate].
  cbn [bind].
  destruct (if legacy then _ else _) as [normalized | e]; [| discriminate].
  cbn [bind].
  destruct (add t normalized) as [total | e]; [| discriminate].
  cbn [bind]. intros H. injection H as _ Hc. symmetry. exact Hc.
Qed.

(** C9.  On a list of scores that is not empty, the executive summary, the
    recommendations and the maturity section compute the same overall
    score (or fail alike). *)
Theorem overall_score_agree (scores : list Score) :
  scores <> [] ->
  executive_summary_avg_score scores = recommendations_avg_score scores /\
  recommendations_avg_score scores = maturity_level_overall_score scores.
Proof.
  intros Hne. split.
  2:{ unfold recommendations_avg_score, maturity_level_overall_score.
      f_equal. apply for_each_ext. intros [t c] score.
      unfold normalize.
      destruct (gt (getattr_total_score score) (PyNum (Int 5))) as [legacy | e];
        reflexivity. }
  unfold executive_summary_avg_score, recommendations_avg_score.
  match goal with
  | |- bind ?loop _ = _ => destruct loop as [[t c] | e] eqn:E
  end; [| reflexivity].
  cbn [bind].
  apply for_each_count in E.
  - assert (Hc : 0 < c).
    { destruct scores as [| s rest]; [congruence |]. cbn [List.length] in E. lia. }
    apply Z.ltb_lt in Hc. rewrite Hc. reflexivity.
  - intros t0 c0 x t' c'. apply loop_body_counts.
Qed.

Lemma overall_score_agree_witness :
  [ {| total_score := Some (PyNum (Int 82)) |};
    {| total_score := Some (PyNum (Float (5 # 2))) |} ] <> [] /\
  (executive_summary_avg_score
     [ {| total_score := Some (PyNum (Int 82)) |};
       {| total_score := Some (PyNum (Float (5 # 2))) |} ] =
   recommendations_avg_score
     [ {| total_score := Some (PyNum (Int 82)) |};
       {| total_score := Some (PyNum (Float (5 # 2))) |} ] /\
   recommendations_avg_score
     [ {| total_score := Some (PyNum (Int 82)) |};
       {| total_score := Some (PyNum (Float (5 # 2))) |} ] =
   maturity_level_overall_score
     [ {| total_score := Some (PyNum (Int 82)) |};
       {| total_score := Some (PyNum (Float (5 # 2))) |} ]).
Proof.
  split; [discriminate | apply overall_score_agree; discriminate].
Defined.

(** The title page runs the loop of the recommendations, word for word. *)
Lemma title_page_overall_score_agree (scores : list Score) :
  title_page_overall_score scores = recommendations_avg_score scores.
Proof. reflexivity. Qed.

(** The defaults after the loop differ: were the loops run on an empty
    list, the executive summary would get 0 and the other sections 1.0. *)
Example overall_score_empty :
  executive_summary_avg_score [] = Ok (PyNum (Int 0)) /\
  recommendations_avg_score [] = Ok (PyNum (Float 1)) /\
  maturity_level_overall_score [] = Ok (PyNum (Float 1)).
Proof. repeat split. Qed.

(** The end-to-end examples of the specification: the raw score 2.5 gives
    level 2, the raw score 80 on the legacy scale gives 4.0 and level 4. *)
Example create_maturity_level_80 :
  create_maturity_level (Some [ {| total_score := Some (PyNum (Int 80)) |} ]) =
  Ok (MaturityResults
        {| overall_maturity_score := PyNum (Float 4);
           maturity_level := "Level 4 - Managed" |}).
Proof. vm_compute. reflexivity. Qed.

(** The two end-to-end examples of the specification: 2.3 is kept and has
    level 2; 82, on the legacy scale, becomes 4.1 and has level 4. *)
Example end_to_end_2_3 :
  normalize (PyNum (Float (binary64 (23 # 10)))) =
    Ok (PyNum (Float (binary64 (23 # 10)))) /\
  get_maturity_level (PyNum (Float (binary64 (23 # 10)))) =
    Ok "Level 2 - Developing" /\
  option_map TestEnhancedRoadmap.phase_bucket
    (TestEnhancedRoadmap.phase_of_level 2) = Some "0-3 months".
Proof. repeat split; vm_compute; reflexivity. Qed.

Example end_to_end_82 :
  normalize (PyNum (Int 82)) = Ok (PyNum (Float (binary64 (41 # 10)))) /\
  get_maturity_level (PyNum (Float (binary64 (41 # 10)))) =
    Ok "Level 4 - Managed" /\
  option_map TestEnhancedRoadmap.phase_bucket
    (TestEnhancedRoadmap.phase_of_level 4) = Some "6-12 months".
Proof. repeat split; vm_compute; reflexivity. Qed.

End OverallScore.

(** ** Missing scores *)

Section MissingScores.

(** C4, as stated, fails: a score object without a [total_score] is read
    as 0, so the normalised score and the overall score are 0 and not 1.0;
    and a [total_score] that is [None] makes the comparison with 5 raise. *)
Lemma missing_score_not_defaulted :
  normalize (getattr_total_score {| total_score := None |}) = Ok (PyNum (Int 0)) /\
  create_maturity_level (Some [ {| total_score := None |} ]) =
    Ok (MaturityResults
          {| overall_maturity_score := PyNum (Float 0);
             maturity_level := "Level 1 - Initial" |}) /\
  create_maturity_level (Some [ {| total_score := Some PyNone |} ]) =
    Raise TypeError.
Proof. repeat split; vm_compute; reflexivity. Qed.

(** C4, amended.  When there are no scores at all ([self.scores] is [None]
    or empty) nothing is raised: the title page and the recommendations use
    the default overall score 1.0, classified as level 1 "Initial", while
    the maturity section reports that there is no data and the executive
    summary shows no score.  [get_maturity_level(None)] is level 1
    "Initial", and a score object without a [total_score] counts as 0,
    which is also classified as level 1 "Initial". *)
Theorem no_scores_default (scores : scores_t) :
  scores = None \/ scores = Some [] ->
  create_title_page scores =
    Ok {| overall_maturity_score := PyNum (Float 1);
          maturity_level := "Level 1 - Initial" |} /\
  create_recommendations scores = Ok recommendations_below_2 /\
  create_maturity_level scores = Ok NoMaturityData /\
  create_executive_summary scores = Ok None /\
  get_maturity_level PyNone = Ok "Level 1 - Initial" /\
  getattr_total_score {| total_score := None |} = PyNum (Int 0) /\
  get_maturity_level (getattr_total_score {| total_score := None |}) =
    Ok "Level 1 - Initial".
Proof.
  intros [-> | ->]; repeat split.
Qed.

Lemma no_scores_default_witness :
  (Some (@nil Score) = None \/ Some (@nil Score) = Some []) /\
  (create_title_page (Some []) =
     Ok {| overall_maturity_score := PyNum (Float 1);
           maturity_level := "Level 1 - Initial" |} /\
   create_recommendations (Some []) = Ok recommendations_below_2 /\
   create_maturity_level (Some []) = Ok NoMaturityData /\
   create_executive_summary (Some []) = Ok None /\
   get_maturity_level PyNone = Ok "Level 1 - Initial" /\
   getattr_total_score {| total_score := None |} = PyNum (Int 0) /\
   get_maturity_level (getattr_total_score {| total_score := None |}) =
     Ok "Level 1 - Initial").
Proof.
  split; [right; reflexivity | apply (no_scores_default (Some [])); right; reflexivity].
Defined.

End MissingScores.

(** ** The bands of the classifier *)

Section Bands.

Local Open Scope Q_scope.

(** Below the half, the rounding does not exceed the integer. *)
Lemma round_half_even_below_half (n : Z) (q : Q) :
  q < inject_Z n + (1 # 2) -> (round_half_even q <= n)%Z.
Proof.
  intros H.
  pose proof (Qfloor_le q) as Hfl.
  destruct (Z_lt_le_dec (Qfloor q) n) as [Hlt | Hge].
  - pose proof (round_half_even_floor q). lia.
  - assert (Hf : Qfloor q = n).
    { apply Z.le_antisymm; [| exact Hge].
      apply Z.lt_succ_r. rewrite Zlt_Qlt. unfold Z.succ.
      rewrite inject_Z_plus. change (inject_Z 1) with 1. lra. }
    unfold round_half_even. rewrite Hf.
    destruct (Qcompare_spec (q - inject_Z n) (1 # 2)) as [H1 | H1 | H1];
      [exfalso; lra | lia | exfalso; lra].
Qed.

(** Above the half below it, the rounding reaches the integer. *)
Lemma round_half_even_above_half (n : Z) (q : Q) :
  inject_Z n - (1 # 2) < q -> (n <= round_half_even q)%Z.
Proof.
  intros H.
  pose proof (Qlt_floor q) as Hfl.
  rewrite inject_Z_plus in Hfl. change (inject_Z 1) with 1 in Hfl.
  assert (Hn : inject_Z (n - 1) == inject_Z n - 1).
  { unfold Z.sub. rewrite inject_Z_plus. reflexivity. }
  destruct (Z_lt_le_dec (Qfloor q) n) as [Hlt | Hge].
  - assert (Hf : Qfloor q = (n - 1)%Z).
    { apply Z.le_antisymm; [lia |].
      apply Z.lt_succ_r. rewrite Zlt_Qlt. unfold Z.succ.
      rewrite inject_Z_plus, Hn. change (inject_Z 1) with 1. lra. }
    unfold round_half_even. rewrite Hf, Hn.
    destruct (Qcompare_spec (q - (inject_Z n - 1)) (1 # 2)) as [H1 | H1 | H1];
      [exfalso; lra | exfalso; lra | lia].
  - pose proof (round_half_even_floor q). lia.
Qed.

(** A tie goes to the even neighbour, from above... *)
Lemma round_half_even_tie_down (n : Z) (q : Q) :
  Z.even n = true -> q <= inject_Z n + (1 # 2) -> (round_half_even q <= n)%Z.
Proof.
  intros Heven H.
  destruct (Qlt_le_dec q (inject_Z n + (1 # 2))) as [Hlt | Hge].
  - apply round_half_even_below_half. exact Hlt.
  - assert (Hq : q == inject_Z n + (1 # 2)) by (apply Qle_antisym; assumption).
    assert (Hf : Qfloor q = n).
    { rewrite Hq. apply Z.le_antisymm.
      - apply Z.lt_succ_r. rewrite Zlt_Qlt. unfold Z.succ.
        rewrite inject_Z_plus. change (inject_Z 1) with 1.
        pose proof (Qfloor_le (inject_Z n + (1 # 2))). lra.
      - rewrite <- (Qfloor_Z n) at 1. apply Qfloor_resp_le. lra. }
    unfold round_half_even. rewrite Hf, Heven.
    destruct (Qcompare_spec (q - inject_Z n) (1 # 2)) as [H1 | H1 | H1];
      [lia | lia | exfalso; lra].
Qed.

(** ... and from below. *)
Lemma round_half_even_tie_up (n : Z) (q : Q) :
  Z.even n = true -> inject_Z n - (1 # 2) <= q -> (n <= round_half_even q)%Z.
Proof.
  intros Heven H.
  destruct (Qlt_le_dec (inject_Z n - (1 # 2)) q) as [Hlt | Hge].
  - apply round_half_even_above_half. exact Hlt.
  - assert (Hq : q == inject_Z n - (1 # 2)) by (apply Qle_antisym; assumption).
    assert (Hn : inject_Z (n - 1) == inject_Z n - 1).
    { unfold Z.sub. rewrite inject_Z_plus. reflexivity. }
    assert (Hf : Qfloor q = (n - 1)%Z).
    { rewrite Hq. apply Z.le_antisymm.
      - apply Z.lt_succ_r. rewrite Zlt_Qlt. unfold Z.succ.
        rewrite inject_Z_plus, Hn. change (inject_Z 1) with 1.
        pose proof (Qfloor_le (inject_Z n - (1 # 2))). lra.
      - rewrite <- (Qfloor_Z (n - 1)) at 1. apply Qfloor_resp_le. lra. }
    assert (Hodd : Z.even (n - 1) = false).
    { rewrite Z.even_sub, Heven. reflexivity. }
    unfold round_half_even. rewrite Hf, Hodd, Hn.
    destruct (Qcompare_spec (q - (inject_Z n - 1)) (1 # 2)) as [H1 | H1 | H1];
      [lia | exfalso; lra | lia].
Qed.

(** X1.  The score bands of the five levels, for every finite number (an
    int or a finite float; for the infinities and NaN see
    [get_maturity_level_total_but_inf]): below 1.5 level 1, from 1.5 to
    2.5 (both included) level 2, strictly between 2.5 and 3.5 level 3, from
    3.5 to 4.5 (both included) level 4, above 4.5 level 5. *)
Theorem get_maturity_level_bands (n : number) :
  (value n < 3 # 2 /\
   get_maturity_level (PyNum n) = Ok "Level 1 - Initial") \/
  ((3 # 2 <= value n /\ value n <= 5 # 2) /\
   get_maturity_level (PyNum n) = Ok "Level 2 - Developing") \/
  ((5 # 2 < value n /\ value n < 7 # 2) /\
   get_maturity_level (PyNum n) = Ok "Level 3 - Defined") \/
  ((7 # 2 <= value n /\ value n <= 9 # 2) /\
   get_maturity_level (PyNum n) = Ok "Level 4 - Managed") \/
  (9 # 2 < value n /\
   get_maturity_level (PyNum n) = Ok "Level 5 - Optimized").
Proof.
  unfold get_maturity_level.
  destruct (Qlt_le_dec 0 (value n)) as [Hpos | Hneg].
  2:{ left. rewrite rounded_score_nonpositive by exact Hneg.
      split; [lra | reflexivity]. }
  rewrite rounded_score_positive by exact Hpos. cbn [bind].
  set (r := round_half_even (value n)).
  destruct (Qlt_le_dec (value n) (3 # 2)) as [H1 | H1].
  { left. split; [exact H1 |].
    assert (r <= 1)%Z by (apply round_half_even_below_half; unfold inject_Z; lra).
    replace (Z.max 1 (Z.min 5 r)) with 1%Z by lia. reflexivity. }
  destruct (Qlt_le_dec (5 # 2) (value n)) as [H2 | H2]; cycle 1.
  { right; left. split; [split; assumption |].
    assert (2 <= r)%Z by (apply round_half_even_tie_up; [reflexivity | unfold inject_Z; lra]).
    assert (r <= 2)%Z by (apply round_half_even_tie_down; [reflexivity | unfold inject_Z; lra]).
    replace (Z.max 1 (Z.min 5 r)) with 2%Z by lia. reflexivity. }
  destruct (Qlt_le_dec (value n) (7 # 2)) as [H3 | H3].
  { right; right; left. split; [split; assumption |].
    assert (3 <= r)%Z by (apply round_half_even_above_half; unfold inject_Z; lra).
    assert (r <= 3)%Z by (apply round_half_even_below_half; unfold inject_Z; lra).
    replace (Z.max 1 (Z.min 5 r)) with 3%Z by lia. reflexivity. }
  destruct (Qlt_le_dec (9 # 2) (value n)) as [H4 | H4]; cycle 1.
  { right; right; right; left. split; [split; assumption |].
    assert (4 <= r)%Z by (apply round_half_even_tie_up; [reflexivity | unfold inject_Z; lra]).
    assert (r <= 4)%Z by (apply round_half_even_tie_down; [reflexivity | unfold inject_Z; lra]).
    replace (Z.max 1 (Z.min 5 r)) with 4%Z by lia. reflexivity. }
  right; right; right; right. split; [exact H4 |].
  assert (5 <= r)%Z by (apply round_half_even_above_half; unfold inject_Z; lra).
  replace (Z.max 1 (Z.min 5 r)) with 5%Z by lia. reflexivity.
Qed.

End Bands.

(** ** The overall score: errors, range, exactness *)

Section OverallScoreLoop.

Local Open Scope Q_scope.

(** The body of the loop of [create_maturity_level]. *)
Let body : pyval * Z -> Score -> result (pyval * Z) :=
  fun (st : pyval * Z) (score : Score) =>
    let '(total_score, score_count) := st in
    let score_val := getattr_total_score score in
    normalized_score <- normalize score_val ;;
    total_score <- add total_score normalized_score ;;
    Ok (total_score, (score_count + 1)%Z).

Lemma maturity_level_overall_score_loop (scores : list Score) :
  maturity_level_overall_score scores =
  (st <- for_each body scores (PyNum (Int 0), 0%Z) ;;
   let '(total_score, score_count) := st in
   if (0 <? score_count)%Z then truediv total_score (PyNum (Int score_count))
   else Ok (PyNum (Float 1))).
Proof. reflexivity. Qed.

Lemma normalize_number (n : number) :
  exists m : number, normalize (PyNum n) = Ok (PyNum m).
Proof.
  destruct (Qlt_le_dec 5 (value n)) as [H | H].
  - rewrite normalize_legacy by exact H. rewrite truediv_20. eauto.
  - rewrite normalize_same by exact H. eauto.
Qed.

Lemma add_number (t m : number) :
  exists s : number, add (PyNum t) (PyNum m) = Ok (PyNum s).
Proof. destruct t, m; simpl; eauto. Qed.

(** A division by a count that is not zero gives a float. *)
Lemma truediv_count (t : number) (c : Z) :
  (0 < c)%Z ->
  exists q : Q, truediv (PyNum t) (PyNum (Int c)) = Ok (PyNum (Float q)).
Proof.
  intros Hc. unfold truediv.
  destruct (Qeq_bool (value (Int c)) 0) eqn:E.
  - apply Qeq_bool_eq in E. simpl in E. unfold Qeq in E. simpl in E. lia.
  - destruct t; eauto.
Qed.

(** One turn of the loop: [TypeError] on [None], one more score counted
    otherwise. *)
Lemma body_outcome (t : number) (c : Z) (s : Score) :
  (score_is_none s /\ body (PyNum t, c) s = Raise TypeError) \/
  (~ score_is_none s /\
   exists t1 : number, body (PyNum t, c) s = Ok (PyNum t1, (c + 1)%Z)).
Proof.
  unfold body, getattr_total_score, score_is_none.
  destruct (total_score s) as [[| n] |] eqn:Es.
  - left. split; reflexivity.
  - right. split; [congruence |].
    destruct (normalize_number n) as [m Hm]. rewrite Hm. cbn [bind].
    destruct (add_number t m) as [t1 Ht1]. rewrite Ht1. cbn [bind]. eauto.
  - right. split; [congruence |].
    destruct (normalize_number (Int 0)) as [m Hm]. rewrite Hm. cbn [bind].
    destruct (add_number t m) as [t1 Ht1]. rewrite Ht1. cbn [bind]. eauto.
Qed.

(** The loop stops with [TypeError] at the first [None], and otherwise
    counts every score. *)
Lemma loop_outcome (l : list Score) :
  forall (t : number) (c : Z),
    (Exists score_is_none l /\
     for_each body l (PyNum t, c) = Raise TypeError) \/
    (Forall (fun s => ~ score_is_none s) l /\
     exists t' : number,
       for_each body l (PyNum t, c) = Ok (PyNum t', (c + Z.of_nat (List.length l))%Z)).
Proof.
  induction l as [| s rest IH]; intros t c.
  - right. split; [constructor |]. exists t. cbn [for_each List.length].
    f_equal. f_equal. lia.
  - cbn [for_each].
    destruct (body_outcome t c s) as [[Hn Hb] | [Hn [t1 Hb]]]; rewrite Hb; cbn [bind].
    + left. split; [apply Exists_cons_hd; exact Hn | reflexivity].
    + destruct (IH t1 (c + 1)%Z) as [[Hex Hr] | [Hall [t' Hr]]].
      * left. split; [apply Exists_cons_tl; exact Hex | exact Hr].
      * right. split; [constructor; assumption |].
        exists t'. rewrite Hr. cbn [List.length]. f_equal. f_equal. lia.
Qed.

(** X2.  On at most [2 ^ 52] score objects whose [total_score] is missing,
    [None] or a number of magnitude at most [2 ^ 512] (so that nothing
    overflows), [create_maturity_level] raises [TypeError] exactly when
    some [total_score] is [None], and it never raises [ZeroDivisionError]:
    the division by the count is reached only with a count of at least
    one. *)
Theorem create_maturity_level_errors (scores : scores_t) :
  scores_in_bounds scores ->
  (create_maturity_level scores = Raise TypeError <->
   exists l : list Score, scores = Some l /\ Exists score_is_none l) /\
  create_maturity_level scores <> Raise ZeroDivisionError.
Proof.
  intros _.
  destruct scores as [[| s rest] |].
  - split; [| discriminate]. split; [discriminate |].
    intros [l [Hl Hex]]. injection Hl as <-. inversion Hex.
  - unfold create_maturity_level.
    rewrite maturity_level_overall_score_loop.
    destruct (loop_outcome (s :: rest) (Int 0) 0%Z) as [[Hex Hr] | [Hall [t' Hr]]];
      rewrite Hr; cbn [bind].
    + split; [| discriminate]. split; [| reflexivity].
      intros _. exists (s :: rest). auto.
    + assert (Hc : (0 < 0 + Z.of_nat (List.length (s :: rest)))%Z).
      { cbn [List.length]. lia. }
      pose proof Hc as Hb. apply Z.ltb_lt in Hb. rewrite Hb.
      destruct (truediv_count t' _ Hc) as [q Hq]. rewrite Hq. cbn [bind].
      destruct (get_maturity_level_total (PyNum (Float q))) as [lv Hlv].
      rewrite Hlv. cbn [bind].
      split; [| discriminate]. split; [discriminate |].
      intros [l [Hl Hex]]. injection Hl as <-. exfalso.
      apply Exists_exists in Hex. destruct Hex as [x [Hin Hx]].
      rewrite Forall_forall in Hall. exact (Hall x Hin Hx).
  - split; [| discriminate]. split; [discriminate |].
    intros [l [Hl _]]. discriminate Hl.
Qed.

Lemma bounded_82 : bounded (Int 82).
Proof. vm_compute. discriminate. Qed.

Lemma create_maturity_level_errors_witness :
  scores_in_bounds (Some [ int_score 82; {| total_score := Some PyNone |} ]) /\
  (create_maturity_level (Some [ int_score 82; {| total_score := Some PyNone |} ]) =
     Raise TypeError <->
   exists l : list Score,
     Some [ int_score 82; {| total_score := Some PyNone |} ] = Some l /\
     Exists score_is_none l) /\
  create_maturity_level (Some [ int_score 82; {| total_score := Some PyNone |} ]) <>
    Raise ZeroDivisionError.
Proof.
  assert (H : scores_in_bounds
                (Some [ int_score 82; {| total_score := Some PyNone |} ])).
  { split; [vm_compute; discriminate |].
    repeat constructor; intros n E; [| discriminate E].
    injection E as <-. exact bounded_82. }
  split; [exact H | exact (create_maturity_level_errors _ H)].
Defined.

(** An integer of at most 52 bits is a float. *)
Lemma binary64_Z_exact (z : Z) :
  (0 <= z)%Z -> (z <= 2 ^ 52)%Z -> binary64 (inject_Z z) == inject_Z z.
Proof.
  intros H0 H.
  destruct (Z.eq_dec z 0) as [-> | Hz]; [reflexivity |].
  destruct (binary64_between z z (inject_Z z)) as [Hlo Hhi];
    try apply Qle_refl; try lia.
  apply Qle_antisym; assumption.
Qed.

Lemma to_float_exact (n : number) :
  0 <= value n -> value n <= inject_Z (2 ^ 52) -> to_float n == value n.
Proof.
  destruct n as [z | q]; cbn [to_float value]; intros H0 H; [| reflexivity].
  apply binary64_Z_exact; rewrite Zle_Qle; assumption.
Qed.

(** A raw score of one of the two scales is normalised into [1, 5]. *)
Lemma normalize_in_scale (n : number) :
  in_scale (value n) ->
  exists m : number,
    normalize (PyNum n) = Ok (PyNum m) /\ 1 <= value m /\ value m <= 5.
Proof.
  intros [[Hlo Hhi] | [Hlo Hhi]].
  - exists n. rewrite normalize_same by exact Hhi. auto.
  - exists (Float (binary64 (value n / 20))).
    split; [rewrite normalize_legacy by lra; apply truediv_20 |].
    cbn [value]. apply (binary64_between 1 5); try lia.
    + apply Qle_shift_div_l; [reflexivity |].
      change (inject_Z 1 * 20) with 20. exact Hlo.
    + apply Qle_shift_div_r; [reflexivity |].
      change (inject_Z 5 * 20) with 100. exact Hhi.
Qed.

(** A sum of at most 52 bits stays between the integers that enclose the
    exact sum. *)
Lemma add_between (t m : number) (a b : Z) :
  (0 <= a)%Z -> (5 * (b + 1) <= 2 ^ 52)%Z -> (a <= b)%Z ->
  inject_Z a <= value t -> value t <= 5 * inject_Z b ->
  1 <= value m -> value m <= 5 ->
  exists s : number,
    add (PyNum t) (PyNum m) = Ok (PyNum s) /\
    inject_Z (a + 1) <= value s /\ value s <= 5 * inject_Z (b + 1).
Proof.
  intros Ha Hb Hab Hlo Hhi Hm1 Hm5.
  assert (Ha' : 0 <= inject_Z a).
  { change 0 with (inject_Z 0). rewrite <- Zle_Qle. exact Ha. }
  assert (Hb' : inject_Z (5 * (b + 1)) <= inject_Z (2 ^ 52)).
  { rewrite <- Zle_Qle. exact Hb. }
  rewrite inject_Z_mult in Hb'. change (inject_Z 5) with 5 in Hb'.
  assert (Hb1 : inject_Z (b + 1) == inject_Z b + 1).
  { rewrite inject_Z_plus. reflexivity. }
  assert (Ha1 : inject_Z (a + 1) == inject_Z a + 1).
  { rewrite inject_Z_plus. reflexivity. }
  assert (Htf : to_float t == value t) by (apply to_float_exact; lra).
  assert (Hmf : to_float m == value m).
  { apply to_float_exact; [lra |]. change (inject_Z (2 ^ 52)) with 4503599627370496. lra. }
  assert (Hfloat : exists s : number,
             Ok (PyNum (Float (binary64 (to_float t + to_float m)))) = Ok (PyNum s) /\
             inject_Z (a + 1) <= value s /\ value s <= 5 * inject_Z (b + 1)).
  { eexists. split; [reflexivity |]. cbn [value].
    assert (Hbin : inject_Z (a + 1) <= binary64 (to_float t + to_float m) /\
                   binary64 (to_float t + to_float m) <= inject_Z (5 * (b + 1))).
    { apply binary64_between; try lia.
      - rewrite Htf, Hmf, Ha1. lra.
      - rewrite Htf, Hmf, inject_Z_mult, Hb1. change (inject_Z 5) with 5. lra. }
    rewrite inject_Z_mult in Hbin. change (inject_Z 5) with 5 in Hbin. exact Hbin. }
  destruct t as [x | x], m as [y | y]; try exact Hfloat.
  exists (Int (x + y)). split; [reflexivity |].
  cbn [value] in *. rewrite !inject_Z_plus. change (inject_Z 1) with 1.
  split; lra.
Qed.

(** The running total stays between the count and five times the count. *)
Lemma loop_in_range (l : list Score) :
  forall (t : number) (c : Z),
    (0 <= c)%Z -> (5 * (c + Z.of_nat (List.length l)) <= 2 ^ 52)%Z ->
    inject_Z c <= value t -> value t <= 5 * inject_Z c ->
    Forall (fun s => exists n, total_score s = Some (PyNum n) /\ in_scale (value n)) l ->
    exists t' : number,
      for_each body l (PyNum t, c) = Ok (PyNum t', (c + Z.of_nat (List.length l))%Z) /\
      inject_Z (c + Z.of_nat (List.length l)) <= value t' /\
      value t' <= 5 * inject_Z (c + Z.of_nat (List.length l)).
Proof.
  induction l as [| s rest IH]; intros t c Hc Hlen Hlo Hhi Hall.
  - exists t. cbn [for_each List.length]. rewrite Z.add_0_r. auto.
  - inversion Hall as [| s' rest' [n [Hs Hn]] Hrest]; subst.
    cbn [List.length] in *.
    destruct (normalize_in_scale n Hn) as [m [Hm [Hm1 Hm5]]].
    destruct (add_between t m c c) as [t1 [Ht1 [Hlo1 Hhi1]]]; try assumption; try lia.
    destruct (IH t1 (c + 1)%Z) as [t' [Hr [Hlo' Hhi']]]; try assumption; try lia.
    exists t'. cbn [for_each]. unfold body at 1. unfold getattr_total_score.
    rewrite Hs, Hm. cbn [bind]. rewrite Ht1. cbn [bind].
    replace (c + Z.of_nat (S (List.length rest)))%Z
      with (c + 1 + Z.of_nat (List.length rest))%Z by lia.
    auto.
Qed.

(** X3.  When every score object holds a number of one of the two scales
    (1 to 5, or 20 to 100), the overall score is a float between 1.0 and
    5.0: the rounding of the sum and of the quotient does not leave the
    range.  (Up to [2 ^ 52 / 5] scores.) *)
Theorem overall_score_in_range (scores : list Score) :
  scores <> [] ->
  (5 * Z.of_nat (List.length scores) <= 2 ^ 52)%Z ->
  Forall (fun s => exists n, total_score s = Some (PyNum n) /\ in_scale (value n))
         scores ->
  exists q : Q,
    maturity_level_overall_score scores = Ok (PyNum (Float q)) /\ 1 <= q /\ q <= 5.
Proof.
  intros Hne Hlen Hall.
  rewrite maturity_level_overall_score_loop.
  destruct (loop_in_range scores (Int 0) 0%Z) as [t [Hr [Hlo Hhi]]];
    try assumption; try lia; try (cbn [value]; qcmp).
  rewrite Hr. cbn [bind].
  set (c := (0 + Z.of_nat (List.length scores))%Z) in *.
  assert (Hc : (0 < c)%Z).
  { unfold c. destruct scores; [congruence | cbn [List.length]; lia]. }
  pose proof Hc as Hb. apply Z.ltb_lt in Hb. rewrite Hb.
  assert (HcQ : 0 < inject_Z c).
  { change 0 with (inject_Z 0). rewrite <- Zlt_Qlt. exact Hc. }
  assert (Hcf : binary64 (inject_Z c) == inject_Z c).
  { apply binary64_Z_exact; unfold c; lia. }
  assert (Hnz : Qeq_bool (value (Int c)) 0 = false).
  { destruct (Qeq_bool (value (Int c)) 0) eqn:E; [| reflexivity].
    apply Qeq_bool_eq in E. cbn [value] in E. lra. }
  unfold truediv. rewrite Hnz.
  destruct t as [x | x]; eexists; (split; [reflexivity |]);
    cbn [value to_float] in *; apply (binary64_between 1 5); try lia.
  - apply Qle_shift_div_l; [exact HcQ |]. change (inject_Z 1) with 1. lra.
  - apply Qle_shift_div_r; [exact HcQ |]. change (inject_Z 5) with 5. lra.
  - rewrite Hcf. apply Qle_shift_div_l; [exact HcQ |]. change (inject_Z 1) with 1. lra.
  - rewrite Hcf. apply Qle_shift_div_r; [exact HcQ |]. change (inject_Z 5) with 5. lra.
Qed.

Lemma overall_score_in_range_witness :
  [ int_score 82; int_score 3 ] <> [] /\
  (5 * Z.of_nat (List.length [ int_score 82; int_score 3 ]) <= 2 ^ 52)%Z /\
  Forall (fun s => exists n, total_score s = Some (PyNum n) /\ in_scale (value n))
         [ int_score 82; int_score 3 ] /\
  exists q : Q,
    maturity_level_overall_score [ int_score 82; int_score 3 ] = Ok (PyNum (Float q)) /\
    1 <= q /\ q <= 5.
Proof.
  assert (H1 : [ int_score 82; int_score 3 ] <> []) by discriminate.
  assert (H2 : (5 * Z.of_nat (List.length [ int_score 82; int_score 3 ]) <= 2 ^ 52)%Z).
  { vm_compute. discriminate. }
  assert (H3 : Forall (fun s => exists n, total_score s = Some (PyNum n) /\
                                          in_scale (value n))
                      [ int_score 82; int_score 3 ]).
  { repeat constructor.
    - exists (Int 82). split; [reflexivity |]. right. split; qcmp.
    - exists (Int 3). split; [reflexivity |]. left. split; qcmp. }
  split; [exact H1 |]. split; [exact H2 |]. split; [exact H3 |].
  exact (overall_score_in_range _ H1 H2 H3).
Defined.

(** The loop over ints of the 1-5 scale adds them exactly. *)
Lemma loop_of_ints (zs : list Z) :
  forall (t c : Z),
    Forall (fun z => (z <= 5)%Z) zs ->
    for_each body (map int_score zs) (PyNum (Int t), c) =
    Ok (PyNum (Int (t + fold_right Z.add 0%Z zs)), (c + Z.of_nat (List.length zs))%Z).
Proof.
  induction zs as [| z rest IH]; intros t c Hall.
  - cbn [map for_each fold_right List.length]. rewrite !Z.add_0_r. reflexivity.
  - inversion Hall as [| z' rest' Hz Hrest]; subst.
    cbn [map for_each]. unfold body at 1.
    change (getattr_total_score (int_score z)) with (PyNum (Int z)).
    rewrite normalize_same by (cbn [value]; change 5 with (inject_Z 5);
                               rewrite <- Zle_Qle; exact Hz).
    cbn [bind add]. rewrite IH by exact Hrest.
    cbn [fold_right List.length]. f_equal. f_equal; [f_equal; f_equal |]; lia.
Qed.

(** X4.  When all the scores are ints of at most 5 (the 1-5 scale) and not
    below [- 2 ^ 512], the overall score is the exact mean of the scores
    rounded once to a float: the running total stays an int and only the
    final division rounds. *)
Theorem overall_score_of_ints (zs : list Z) :
  zs <> [] ->
  Forall (fun z => (- score_bound <= z <= 5)%Z) zs ->
  maturity_level_overall_score (map int_score zs) =
  Ok (PyNum (Float (binary64 (inject_Z (fold_right Z.add 0%Z zs) /
                              inject_Z (Z.of_nat (List.length zs)))))).
Proof.
  intros Hne Hall.
  rewrite maturity_level_overall_score_loop.
  rewrite loop_of_ints
    by (eapply Forall_impl; [| exact Hall]; cbv beta; intros z Hz; apply Hz).
  cbn [bind].
  assert (Hc : (0 < 0 + Z.of_nat (List.length zs))%Z).
  { destruct zs; [congruence | cbn [List.length]; lia]. }
  pose proof Hc as Hb. apply Z.ltb_lt in Hb. rewrite Hb.
  unfold truediv.
  destruct (Qeq_bool (value (Int (0 + Z.of_nat (List.length zs)))) 0) eqn:E.
  { apply Qeq_bool_eq in E. cbn [value] in E. unfold Qeq in E. simpl in E. lia. }
  rewrite !Z.add_0_l. reflexivity.
Qed.

Lemma overall_score_of_ints_witness :
  [ 2%Z; 3%Z; 5%Z ] <> [] /\
  Forall (fun z => (- score_bound <= z <= 5)%Z) [ 2%Z; 3%Z; 5%Z ] /\
  maturity_level_overall_score (map int_score [ 2%Z; 3%Z; 5%Z ]) =
  Ok (PyNum (Float (binary64 (inject_Z (fold_right Z.add 0%Z [ 2%Z; 3%Z; 5%Z ]) /
                              inject_Z (Z.of_nat (List.length [ 2%Z; 3%Z; 5%Z ])))))).
Proof.
  assert (H1 : [ 2%Z; 3%Z; 5%Z ] <> []) by discriminate.
  assert (H2 : Forall (fun z => (- score_bound <= z <= 5)%Z) [ 2%Z; 3%Z; 5%Z ]).
  { repeat constructor; try lia; vm_compute; discriminate. }
  split; [exact H1 |]. split; [exact H2 |].
  exact (overall_score_of_ints _ H1 H2).
Defined.

End OverallScoreLoop.

(** ** Key findings *)

Section KeyFindings.

Import Findings.

Local Open Scope Q_scope.

Lemma ge_true (x y : number) :
  value y <= value x -> ge (PyNum x) (PyNum y) = Ok true.
Proof. intros H. unfold ge. apply Qle_bool_iff in H. rewrite H. reflexivity. Qed.

Lemma ge_false (x y : number) :
  value x < value y -> ge (PyNum x) (PyNum y) = Ok false.
Proof.
  intros H. unfold ge.
  destruct (Qle_bool (value y) (value x)) eqn:E; [| reflexivity].
  apply Qle_bool_iff in E. exfalso. lra.
Qed.

(** X5.  The key findings and the recommendations are taken from the same
    one of the four tiers, whatever the score, a finite number (NaN, for
    which every comparison is false, is no number of [Py.number]): the tests [>= 4], [>= 3],
    [>= 2] of the one and [< 2], [< 3], [< 4] of the other cut the scores at
    the same places. *)
Theorem findings_match_recommendations (s : number) :
  (value s < 2 /\
   generate_key_findings (PyNum s) = Ok findings_otherwise /\
   generate_recommendations (PyNum s) = Ok recommendations_below_2) \/
  ((2 <= value s /\ value s < 3) /\
   generate_key_findings (PyNum s) = Ok findings_from_2 /\
   generate_recommendations (PyNum s) = Ok recommendations_below_3) \/
  ((3 <= value s /\ value s < 4) /\
   generate_key_findings (PyNum s) = Ok findings_from_3 /\
   generate_recommendations (PyNum s) = Ok recommendations_below_4) \/
  (4 <= value s /\
   generate_key_findings (PyNum s) = Ok findings_from_4 /\
   generate_recommendations (PyNum s) = Ok recommendations_otherwise).
Proof.
  unfold generate_key_findings, generate_recommendations.
  change (value s < 2) with (value s < value (Int 2)).
  change (2 <= value s) with (value (Int 2) <= value s).
  change (value s < 3) with (value s < value (Int 3)).
  change (3 <= value s) with (value (Int 3) <= value s).
  change (value s < 4) with (value s < value (Int 4)).
  change (4 <= value s) with (value (Int 4) <= value s).
  assert (H23 : value (Int 2) < value (Int 3)) by reflexivity.
  assert (H34 : value (Int 3) < value (Int 4)) by reflexivity.
  destruct (Qlt_le_dec (value s) (value (Int 2))) as [H2 | H2].
  { left.
    rewrite (ge_false s (Int 4)), (ge_false s (Int 3)), (ge_false s (Int 2)),
      (lt_true s (Int 2)) by lra.
    auto. }
  destruct (Qlt_le_dec (value s) (value (Int 3))) as [H3 | H3].
  { right; left.
    rewrite (ge_false s (Int 4)), (ge_false s (Int 3)), (ge_true s (Int 2)),
      (lt_false s (Int 2)), (lt_true s (Int 3)) by lra.
    auto. }
  destruct (Qlt_le_dec (value s) (value (Int 4))) as [H4 | H4].
  { right; right; left.
    rewrite (ge_false s (Int 4)), (ge_true s (Int 3)),
      (lt_false s (Int 2)), (lt_false s (Int 3)), (lt_true s (Int 4)) by lra.
    auto. }
  right; right; right.
  rewrite (ge_true s (Int 4)),
    (lt_false s (Int 2)), (lt_false s (Int 3)), (lt_false s (Int 4)) by lra.
  auto.
Qed.

End KeyFindings.

(** ** The lists of the roadmap test *)

Section PhaseLists.

Import TestEnhancedRoadmap.

Variable get_maturity_level_from_score : Q -> Z.

(** Whether a level falls in a phase. *)
Let in_phase (p : phase) (item : string * Q) : bool :=
  match phase_of_level (get_maturity_level_from_score (snd item)), p with
  | Some Phase1, Phase1 | Some Phase2, Phase2 | Some Phase3, Phase3 => true
  | _, _ => false
  end.

Lemma fold_add_to_phase_filter (p : phase) (items : list (string * Q)) :
  forall acc : phases,
    members p
      (fold_left
         (fun (acc : phases) (item : string * Q) =>
            let '(subdim, average_score) := item in
            let level := get_maturity_level_from_score average_score in
            add_to_phase acc subdim (phase_of_level level))
         items acc) =
    members p acc ++ map fst (filter (in_phase p) items).
Proof.
  induction items as [| [subdim avg] rest IH]; intros acc.
  - cbn [fold_left filter map]. rewrite app_nil_r. reflexivity.
  - cbn [fold_left]. rewrite IH. unfold in_phase at 2. cbn [filter snd].
    destruct (phase_of_level (get_maturity_level_from_score avg)) as [[| |] |];
      destruct p; cbn [add_to_phase members map fst phase_1_subdims
                         phase_2_subdims phase_3_subdims];
      rewrite <- ?app_assoc; reflexivity.
Qed.

(** X6.  Each of the three lists of the test holds, in the order of the
    input, the names of the sub-dimensions whose level falls in its phase
    (at most 2, equal to 3, equal to 4); a sub-dimension of another level,
    5 for one, is on no list. *)
Theorem categorize_lists (items : list (string * Q)) (p : phase) :
  members p (categorize get_maturity_level_from_score items) =
  map fst
    (filter
       (fun item : string * Q =>
          match phase_of_level (get_maturity_level_from_score (snd item)), p with
          | Some Phase1, Phase1 | Some Phase2, Phase2 | Some Phase3, Phase3 => true
          | _, _ => false
          end)
       items).
Proof.
  unfold categorize. rewrite fold_add_to_phase_filter.
  destruct p; reflexivity.
Qed.

End PhaseLists.

(** ** The responses grouped by section *)

Section Grouping.

Import Responses.

Lemma dict_get_modify {V : Type} (k k' : string) (f : V -> V) (d : dict V) :
  dict_get k' (dict_modify k f d) =
  if String.eqb k k' then option_map f (dict_get k' d) else dict_get k' d.
Proof.
  induction d as [| [k0 v] rest IH]; cbn [dict_modify dict_get].
  - destruct (String.eqb k k'); reflexivity.
  - destruct (String.eqb_spec k0 k) as [-> | Hk0].
    + cbn [dict_get].
      destruct (String.eqb_spec k k') as [-> | Hk]; reflexivity.
    + cbn [dict_get]. rewrite IH.
      destruct (String.eqb_spec k0 k') as [-> | Hk0'].
      * destruct (String.eqb_spec k k') as [-> | Hk]; [congruence | reflexivity].
      * reflexivity.
Qed.

Lemma dict_get_app {V : Type} (k : string) (d d' : dict V) :
  dict_get k (d ++ d') =
  match dict_get k d with
  | Some v => Some v
  | None => dict_get k d'
  end.
Proof.
  induction d as [| [k0 v] rest IH]; cbn [app dict_get]; [reflexivity |].
  destruct (String.eqb k0 k); [reflexivity | exact IH].
Qed.

Lemma dict_modify_keys {V : Type} (k : string) (f : V -> V) (d : dict V) :
  map fst (dict_modify k f d) = map fst d.
Proof.
  induction d as [| [k0 v] rest IH]; cbn [dict_modify map]; [reflexivity |].
  destruct (String.eqb k0 k); cbn [map fst]; [reflexivity | f_equal; exact IH].
Qed.

Lemma dict_get_keys {V : Type} (k : string) (d : dict V) :
  dict_get k d = None <-> ~ In k (map fst d).
Proof.
  induction d as [| [k0 v] rest IH]; cbn [dict_get map fst In]; [tauto |].
  destruct (String.eqb_spec k0 k) as [-> | Hk].
  - split; [discriminate | tauto].
  - rewrite IH. tauto.
Qed.

(** The key of a response is in the [dict] when its list is appended to:
    [sections[response.section]] cannot raise [KeyError]. *)
Lemma group_step_key_present (d : dict (list Response)) (r : Response) :
  dict_mem (section r)
    (if negb (dict_mem (section r) d) then dict_set (section r) [] d else d) = true.
Proof.
  destruct (dict_mem (section r) d) eqn:E; cbn [negb]; [exact E |].
  unfold dict_set. rewrite E. unfold dict_mem in *. rewrite dict_get_app.
  destruct (dict_get (section r) d); [discriminate |].
  cbn [dict_get]. rewrite String.eqb_refl. reflexivity.
Qed.

Lemma group_step_get (d : dict (list Response)) (r : Response) (k : string) :
  dict_get k (group_step d r) =
  if String.eqb (section r) k
  then Some (match dict_get k d with Some l => l ++ [r] | None => [r] end)
  else dict_get k d.
Proof.
  unfold group_step. rewrite dict_get_modify.
  destruct (dict_mem (section r) d) eqn:E; cbn [negb].
  - destruct (String.eqb_spec (section r) k) as [<- | Hk]; [| reflexivity].
    unfold dict_mem in E. destruct (dict_get (section r) d); [reflexivity | discriminate].
  - unfold dict_set. rewrite E. rewrite dict_get_app. cbn [dict_get].
    destruct (String.eqb_spec (section r) k) as [<- | Hk].
    + unfold dict_mem in E. destruct (dict_get (section r) d); [discriminate | reflexivity].
    + destruct (dict_get k d); reflexivity.
Qed.

Lemma group_step_keys (d : dict (list Response)) (r : Response) :
  map fst (group_step d r) =
  if dict_mem (section r) d then map fst d else map fst d ++ [section r].
Proof.
  unfold group_step. rewrite dict_modify_keys.
  destruct (dict_mem (section r) d) eqn:E; cbn [negb]; [reflexivity |].
  unfold dict_set. rewrite E. rewrite map_app. reflexivity.
Qed.

Lemma group_by_section_snoc (rs : list Response) (r : Response) :
  group_by_section (rs ++ [r]) = group_step (group_by_section rs) r.
Proof. unfold group_by_section. rewrite fold_left_app. reflexivity. Qed.

(** X7.  Under the name of a section the [dict] holds the responses of that
    section, all of them and in the order of the input; a name that no
    response carries is not a key. *)
Theorem group_by_section_get (responses : list Response) (k : string) :
  dict_get k (group_by_section responses) =
  match responses_of k responses with
  | [] => None
  | r :: rest => Some (r :: rest)
  end.
Proof.
  induction responses as [| r rs IH] using rev_ind; [reflexivity |].
  rewrite group_by_section_snoc, group_step_get, IH.
  unfold responses_of. rewrite filter_app. cbn [filter].
  destruct (String.eqb (section r) k).
  - destruct (filter _ rs); reflexivity.
  - rewrite app_nil_r. reflexivity.
Qed.

Lemma first_occurrences_in (x : string) (l : list string) :
  In x (first_occurrences l) <-> In x l.
Proof.
  induction l as [| y rest IH]; cbn [first_occurrences In]; [tauto |].
  rewrite filter_In, IH.
  destruct (String.eqb_spec x y) as [-> | Hxy]; cbn [negb]; intuition congruence.
Qed.

Lemma first_occurrences_snoc (l : list string) (x : string) :
  first_occurrences (l ++ [x]) =
  if in_dec string_dec x l then first_occurrences l else first_occurrences l ++ [x].
Proof.
  induction l as [| y rest IH]; cbn [app first_occurrences filter].
  - reflexivity.
  - rewrite IH.
    destruct (in_dec string_dec x rest) as [Hin | Hout];
      destruct (in_dec string_dec x (y :: rest)) as [Hin' | Hout'];
      cbn [In] in *.
    + reflexivity.
    + exfalso. tauto.
    + rewrite filter_app. cbn [filter].
      destruct (String.eqb_spec x y) as [-> | Hxy]; cbn [negb].
      * rewrite app_nil_r. reflexivity.
      * exfalso. intuition congruence.
    + rewrite filter_app. cbn [filter].
      destruct (String.eqb_spec x y) as [-> | Hxy]; cbn [negb];
        [exfalso; tauto | reflexivity].
Qed.

Lemma first_occurrences_NoDup (l : list string) : NoDup (first_occurrences l).
Proof.
  induction l as [| x rest IH]; cbn [first_occurrences]; constructor.
  - rewrite filter_In. rewrite String.eqb_refl. cbn [negb]. intros [_ H]. discriminate H.
  - apply NoDup_filter. exact IH.
Qed.

Lemma group_by_section_keys_first (responses : list Response) :
  map fst (group_by_section responses) = first_occurrences (map section responses).
Proof.
  induction responses as [| r rs IH] using rev_ind; [reflexivity |].
  rewrite group_by_section_snoc, group_step_keys, map_app. cbn [map].
  rewrite first_occurrences_snoc, <- IH.
  unfold dict_mem.
  destruct (dict_get (section r) (group_by_section rs)) eqn:E;
    destruct (in_dec string_dec (section r) (map section rs)) as [Hin | Hout];
    try reflexivity; exfalso.
  - assert (Hk : dict_get (section r) (group_by_section rs) <> None) by congruence.
    rewrite dict_get_keys, IH, first_occurrences_in in Hk. tauto.
  - apply dict_get_keys in E. rewrite IH, first_occurrences_in in E. tauto.
Qed.

(** X8.  The sections come in the order in which their first response
    occurs, and no section comes twice. *)
Theorem group_by_section_keys (responses : list Response) :
  map fst (group_by_section responses) = first_occurrences (map section responses) /\
  NoDup (map fst (group_by_section responses)).
Proof.
  split; [apply group_by_section_keys_first |].
  rewrite group_by_section_keys_first. apply first_occurrences_NoDup.
Qed.

Lemma dict_modify_concat (k : string) (r : Response) (d : dict (list Response)) :
  dict_mem k d = true ->
  Permutation (List.concat (map snd (dict_modify k (fun l => l ++ [r]) d)))
              (List.concat (map snd d) ++ [r]).
Proof.
  unfold dict_mem.
  induction d as [| [k0 l] rest IH]; cbn [dict_get dict_modify]; [discriminate |].
  destruct (String.eqb k0 k); cbn [map snd List.concat]; intros H.
  - rewrite <- !app_assoc. apply Permutation_app_head. apply Permutation_app_comm.
  - rewrite <- !app_assoc. apply Permutation_app_head. apply IH. exact H.
Qed.

Lemma group_concat_permutation (responses : list Response) :
  Permutation (List.concat (map snd (group_by_section responses))) responses.
Proof.
  induction responses as [| r rs IH] using rev_ind; [constructor |].
  rewrite group_by_section_snoc. unfold group_step.
  rewrite dict_modify_concat by apply group_step_key_present.
  apply Permutation_app_tail.
  destruct (dict_mem (section r) (group_by_section rs)) eqn:E; cbn [negb];
    [exact IH |].
  unfold dict_set. rewrite E, map_app, concat_app. cbn [map snd List.concat].
  rewrite !app_nil_r. exact IH.
Qed.

(** X9.  The grouping neither loses nor repeats a response: the groups,
    put end to end, are a rearrangement of the input, and their sizes add
    up to the number of responses. *)
Theorem group_by_section_permutation (responses : list Response) :
  Permutation (List.concat (map snd (group_by_section responses))) responses /\
  List.length (List.concat (map snd (group_by_section responses))) =
    List.length responses.
Proof.
  split; [apply group_concat_permutation |].
  apply Permutation_length, group_concat_permutation.
Qed.

End Grouping.

(** ** The detailed results *)

Section DetailedResults.

Import Responses.

(** The normalisation written out in the loops over the responses is the
    one of the overall score. *)
Lemma inline_normalize (score : pyval) {A : Type} (k : pyval -> result A) :
  (legacy <- gt score (PyNum (Int 5)) ;;
   normalized_score <-
     (if legacy then truediv score (PyNum (Int 20)) else Ok score) ;;
   k normalized_score) =
  (normalized_score <- normalize score ;; k normalized_score).
Proof.
  unfold normalize.
  destruct (gt score (PyNum (Int 5))) as [legacy | e]; reflexivity.
Qed.

(** The body of the loop of lines 233-241. *)
Let scores_body : list pyval -> Response -> result (list pyval) :=
  fun (section_scores : list pyval) (r : Response) =>
    let score := getattr_score r in
    match score with
    | PyNone => Ok section_scores
    | _ =>
        legacy <- gt score (PyNum (Int 5)) ;;
        normalized_score <-
          (if legacy then truediv score (PyNum (Int 20)) else Ok score) ;;
        Ok (section_scores ++ [normalized_score])
    end.

Lemma scores_body_outcome (acc : list pyval) (r : Response) :
  (has_score r = false /\ scores_body acc r = Ok acc) \/
  (has_score r = true /\
   exists v : pyval,
     normalize (getattr_score r) = Ok v /\ scores_body acc r = Ok (acc ++ [v])).
Proof.
  unfold scores_body, has_score.
  destruct (getattr_score r) as [| n] eqn:Er.
  - left. split; reflexivity.
  - right. split; [reflexivity |].
    destruct (normalize_number n) as [m Hm].
    exists (PyNum m). split; [exact Hm |].
    rewrite inline_normalize, Hm. reflexivity.
Qed.

Lemma section_scores_loop (rs : list Response) :
  forall acc : list pyval,
  exists scores : list pyval,
    for_each scores_body rs acc = Ok (acc ++ scores) /\
    Forall2 (fun r v => normalize (getattr_score r) = Ok v) (filter has_score rs) scores.
Proof.
  induction rs as [| r rest IH]; intros acc.
  - exists []. cbn [for_each filter]. rewrite app_nil_r. split; [reflexivity | constructor].
  - cbn [for_each filter].
    destruct (scores_body_outcome acc r) as [[Hs Hb] | [Hs [v [Hv Hb]]]];
      rewrite Hb, Hs; cbn [bind].
    + apply IH.
    + destruct (IH (acc ++ [v])) as [scores [Hr Hall]].
      exists (v :: scores). rewrite Hr, <- app_assoc.
      split; [reflexivity |]. constructor; assumption.
Qed.

(** X10.  In the detailed results a response without a score is left out,
    it neither counts as 0 nor raises.  For responses whose scores, where
    there are any, are numbers of magnitude at most [2 ^ 512]: whenever the
    loop returns, the scores of a section are the normalised scores of the
    responses that have one, in order; and a section without any gets no
    section score, no division is made. *)
Theorem section_scores_skip_none (rs : list Response) (scores : list pyval) :
  Forall bounded_response rs ->
  section_scores rs = Ok scores ->
  Forall2 (fun r v => normalize (getattr_score r) = Ok v)
          (filter has_score rs) scores /\
  (forall (py_sum : list pyval -> result pyval) (name : string),
      filter has_score rs = [] ->
      summarize_section py_sum name rs =
      Ok {| section_name := name;
            avg_section_score := None;
            completed :=
              Z.of_nat (List.length (filter (fun r => str_truthy (answer r)) rs));
            total := Z.of_nat (List.length rs) |}).
Proof.
  intros _ Hscores.
  destruct (section_scores_loop rs []) as [scores' [Hr Hall]].
  cbn [app] in Hr.
  change (section_scores rs) with (for_each scores_body rs []) in Hscores.
  rewrite Hr in Hscores. injection Hscores as <-.
  split; [exact Hall |].
  intros py_sum name Hnone. unfold summarize_section.
  change (section_scores rs) with (for_each scores_body rs []).
  rewrite Hr. rewrite Hnone in Hall. inversion Hall; subst. reflexivity.
Qed.

Lemma bounded_80 : bounded (Int 80).
Proof. vm_compute. discriminate. Qed.

Lemma build_responses_bounded :
  Forall bounded_response [ build_response; scored_response ].
Proof.
  repeat constructor; intros n E; [discriminate E |].
  injection E as <-. exact bounded_80.
Qed.

Lemma section_scores_skip_none_witness :
  Forall bounded_response [ build_response; scored_response ] /\
  section_scores [ build_response; scored_response ] = Ok [ PyNum (Float 4) ] /\
  Forall2 (fun r v => normalize (getattr_score r) = Ok v)
          (filter has_score [ build_response; scored_response ])
          [ PyNum (Float 4) ] /\
  (forall (py_sum : list pyval -> result pyval) (name : string),
      filter has_score [ build_response; scored_response ] = [] ->
      summarize_section py_sum name [ build_response; scored_response ] =
      Ok {| section_name := name;
            avg_section_score := None;
            completed :=
              Z.of_nat (List.length (filter (fun r => str_truthy (answer r))
                                            [ build_response; scored_response ]));
            total := Z.of_nat (List.length [ build_response; scored_response ]) |}).
Proof.
  assert (H : section_scores [ build_response; scored_response ] =
              Ok [ PyNum (Float 4) ]).
  { vm_compute. reflexivity. }
  split; [exact build_responses_bounded |]. split; [exact H |].
  exact (section_scores_skip_none _ _ build_responses_bounded H).
Defined.

Lemma filter_length_permutation {A : Type} (f : A -> bool) (l l' : list A) :
  Permutation l l' -> List.length (filter f l) = List.length (filter f l').
Proof.
  induction 1 as [| x l l' _ IH | x y l | l l' l'' _ IH1 _ IH2]; cbn [filter].
  - reflexivity.
  - destruct (f x); cbn [List.length]; congruence.
  - destruct (f x), (f y); reflexivity.
  - congruence.
Qed.

Lemma dict_modify_Forall {V : Type} (P : V -> Prop) (k : string) (f : V -> V)
      (d : dict V) :
  (forall v, P (f v)) ->
  Forall (fun g => fst g = k \/ P (snd g)) d ->
  Forall (fun g => fst g = k \/ P (snd g)) (dict_modify k f d).
Proof.
  intros Hf. induction d as [| [k0 v] rest IH]; cbn [dict_modify]; intros H;
    [constructor |].
  inversion H as [| g rest' Hg Hrest]; subst.
  destruct (String.eqb k0 k); constructor; cbn [fst snd] in *; auto.
Qed.

(** No section is empty. *)
Lemma group_by_section_nonempty (responses : list Response) :
  Forall (fun g => snd g <> []) (group_by_section responses).
Proof.
  induction responses as [| r rs IH] using rev_ind; [constructor |].
  rewrite group_by_section_snoc.
  rewrite Forall_forall. intros [k l] Hin. cbn [snd].
  destruct (dict_get k (group_step (group_by_section rs) r)) as [l' |] eqn:E.
  - assert (Hl : l <> [] \/ k = section r).
    { unfold group_step in Hin.
      assert (HF : Forall (fun g => fst g = section r \/ snd g <> [])
                     (dict_modify (section r) (fun l0 => l0 ++ [r])
                        (if negb (dict_mem (section r) (group_by_section rs))
                         then dict_set (section r) [] (group_by_section rs)
                         else group_by_section rs))).
      { apply (dict_modify_Forall (fun v => v <> [])).
        - intros v Hv. destruct v; discriminate Hv.
        - destruct (dict_mem (section r) (group_by_section rs)) eqn:Em; cbn [negb].
          + eapply Forall_impl; [| exact IH]. intros g Hg. right. exact Hg.
          + unfold dict_set. rewrite Em. apply Forall_app. split.
            * eapply Forall_impl; [| exact IH]. intros g Hg. right. exact Hg.
            * constructor; [left; reflexivity | constructor]. }
      rewrite Forall_forall in HF. specialize (HF _ Hin). cbn [fst snd] in HF.
      destruct HF as [-> | Hl]; [right; reflexivity | left; exact Hl]. }
    destruct Hl as [Hl | ->]; [exact Hl |].
    assert (Hnd : NoDup (map fst (group_by_section (rs ++ [r])))).
    { rewrite group_by_section_keys_first. apply first_occurrences_NoDup. }
    rewrite group_by_section_snoc in Hnd.
    assert (Hget : dict_get (section r) (group_step (group_by_section rs) r) = Some l).
    { clear E. revert Hnd Hin. generalize (group_step (group_by_section rs) r).
      induction d as [| [k0 v] rest IHd]; cbn [map fst In dict_get]; intros Hnd Hin;
        [contradiction |].
      inversion Hnd as [| x xs Hx Hxs]; subst.
      destruct Hin as [Heq | Hin].
      - injection Heq as -> ->. rewrite String.eqb_refl. reflexivity.
      - destruct (String.eqb_spec k0 (section r)) as [-> | Hk].
        + exfalso. apply Hx. apply (in_map fst) in Hin. exact Hin.
        + apply IHd; assumption. }
    rewrite group_step_get, String.eqb_refl in Hget.
    injection Hget as <-. destruct (dict_get _ _) as [l0 |]; [destruct l0 |]; discriminate.
  - exfalso. apply dict_get_keys in E. apply E.
    apply (in_map fst) in Hin. exact Hin.
Qed.

End DetailedResults.

Section DetailedCounts.

Import Responses.

Variable py_sum : list pyval -> result pyval.

Lemma summarize_section_fields (name : string) (rs : list Response) (s : section_summary) :
  summarize_section py_sum name rs = Ok s ->
  section_name s = name /\
  total s = Z.of_nat (List.length rs) /\
  completed s = Z.of_nat (List.length (filter (fun r => str_truthy (answer r)) rs)).
Proof.
  unfold summarize_section.
  destruct (section_scores rs) as [scores | e]; cbn [bind]; [| discriminate].
  destruct scores as [| v scores]; cbn [bind].
  - intros H. injection H as <-. auto.
  - destruct (py_sum (v :: scores)) as [t | e]; cbn [bind]; [| discriminate].
    destruct (truediv t _) as [a | e]; cbn [bind]; [| discriminate].
    intros H. injection H as <-. auto.
Qed.

Lemma detailed_results_loop (groups : dict (list Response)) :
  forall acc out : list section_summary,
    for_each
      (fun (story : list section_summary) (item : string * list Response) =>
         let '(name, section_responses) := item in
         summary <- summarize_section py_sum name section_responses ;;
         Ok (story ++ [summary]))
      groups acc = Ok out ->
    exists ss : list section_summary,
      out = acc ++ ss /\
      Forall2
        (fun (g : string * list Response) (s : section_summary) =>
           section_name s = fst g /\
           total s = Z.of_nat (List.length (snd g)) /\
           completed s =
             Z.of_nat (List.length (filter (fun r => str_truthy (answer r)) (snd g))))
        groups ss.
Proof.
  induction groups as [| [name rs] rest IH]; intros acc out H.
  - cbn [for_each] in H. injection H as <-. exists []. rewrite app_nil_r.
    split; [reflexivity | constructor].
  - cbn [for_each] in H.
    destruct (summarize_section py_sum name rs) as [s | e] eqn:Es; cbn [bind] in H;
      [| discriminate].
    apply IH in H. destruct H as [ss [-> Hall]].
    exists (s :: ss). rewrite <- app_assoc. split; [reflexivity |].
    constructor; [| exact Hall]. apply summarize_section_fields. exact Es.
Qed.

Lemma counts_sum (f : list Response -> list Response)
      (groups : dict (list Response)) (ss : list section_summary)
      (count : section_summary -> Z) :
  (forall l l', f (l ++ l') = f l ++ f l') ->
  Forall2 (fun g s => count s = Z.of_nat (List.length (f (snd g)))) groups ss ->
  fold_right Z.add 0 (map count ss) =
  Z.of_nat (List.length (f (List.concat (map snd groups)))).
Proof.
  intros Hf. induction 1 as [| g s groups ss Hgs _ IH].
  - cbn [map fold_right List.concat].
    assert (Hnil : f [] = []).
    { specialize (Hf [] []). cbn [app] in Hf.
      apply (f_equal (@List.length _)) in Hf. rewrite length_app in Hf.
      destruct (f []); [reflexivity | cbn [List.length] in Hf; lia]. }
    rewrite Hnil. reflexivity.
  - cbn [map fold_right List.concat]. rewrite Hf, length_app, IH, Hgs. lia.
Qed.

(** X11.  The lines "Questions: c/t completed" of the detailed results add
    up to the two counts of the executive summary: the totals to the number
    of responses, the completed ones to the number of answered responses.
    Each section has at least one question, and no more completed than
    asked; the sections are those of the grouping, in its order. *)
Theorem detailed_results_counts (responses : list Response)
        (summaries : list section_summary) :
  create_detailed_results py_sum responses = Ok summaries ->
  map section_name summaries = map fst (group_by_section responses) /\
  Forall (fun s => 0 <= completed s <= total s /\ 1 <= total s) summaries /\
  fold_right Z.add 0 (map total summaries) = total_questions responses /\
  fold_right Z.add 0 (map completed summaries) = completed_questions responses.
Proof.
  intros H. unfold create_detailed_results in H.
  apply detailed_results_loop in H. destruct H as [ss [-> Hall]]. cbn [app].
  pose proof (group_concat_permutation responses) as Hperm.
  pose proof (group_by_section_nonempty responses) as Hne.
  repeat split.
  - clear Hperm Hne. induction Hall as [| g s gs ss' [Hn _] _ IH];
      cbn [map]; [reflexivity | f_equal; assumption].
  - clear Hperm. induction Hall as [| g s gs ss' [_ [Ht Hc]] _ IH]; [constructor |].
    inversion Hne as [| g' gs' Hg Hgs]; subst.
    constructor; [| apply IH; exact Hgs].
    rewrite Ht, Hc.
    pose proof (filter_length_le (fun r => str_truthy (answer r)) (snd g)).
    destruct (snd g); [congruence | cbn [List.length] in *; lia].
  - unfold total_questions.
    rewrite <- (Permutation_length Hperm).
    apply (counts_sum (fun l => l)); [reflexivity |].
    eapply Forall2_impl; [| exact Hall]. cbv beta. intros g s [_ [Ht _]]. exact Ht.
  - unfold completed_questions.
    rewrite <- (filter_length_permutation _ _ _ Hperm).
    apply (counts_sum (filter (fun r => str_truthy (answer r)))); [apply filter_app |].
    eapply Forall2_impl; [| exact Hall]. cbv beta. intros g s [_ [_ Hc]]. exact Hc.
Qed.

End DetailedCounts.

Lemma detailed_results_counts_witness :
  Responses.create_detailed_results (fun _ => Ok (PyNum (Int 0))) [build_response] =
    Ok [build_summary] /\
  (map Responses.section_name [build_summary] =
     map fst (Responses.group_by_section [build_response]) /\
   Forall (fun s => 0 <= Responses.completed s <= Responses.total s /\
                    1 <= Responses.total s) [build_summary] /\
   fold_right Z.add 0 (map Responses.total [build_summary]) =
     Responses.total_questions [build_response] /\
   fold_right Z.add 0 (map Responses.completed [build_summary]) =
     Responses.completed_questions [build_response]).
Proof.
  assert (H : Responses.create_detailed_results (fun _ => Ok (PyNum (Int 0)))
                [build_response] = Ok [build_summary]).
  { vm_compute. reflexivity. }
  split; [exact H | exact (detailed_results_counts _ _ _ H)].
Defined.

(** ** The questionnaire responses *)

Section Questionnaire.

Import Responses.

Lemma question_lines_app (s t : list paragraph) :
  question_lines (s ++ t) = question_lines s ++ question_lines t.
Proof. unfold question_lines. apply flat_map_app. Qed.

Lemma answer_text_not_blank (a : option string) :
  (if str_truthy a then match a with Some t => t | None => "" end
   else "Not answered") <> "".
Proof.
  destruct a as [t |]; cbn [str_truthy]; [| discriminate].
  destruct (String.eqb_spec t "") as [-> | Ht]; cbn [negb]; [discriminate | exact Ht].
Qed.

(** The paragraphs of one response: its question under its number, and
    nothing blank. *)
Lemma response_paragraphs_outcome (i : Z) (r : Response) :
  exists ps : list paragraph,
    response_paragraphs i r = Ok ps /\
    question_lines ps = [(i, question r)] /\
    Forall paragraph_ok ps.
Proof.
  unfold response_paragraphs.
  set (story := [QuestionLine i (question r); AnswerLine _]).
  assert (Hq : question_lines story = [(i, question r)]) by reflexivity.
  assert (Hok : Forall paragraph_ok story).
  { repeat constructor. cbn [paragraph_ok]. apply answer_text_not_blank. }
  clearbody story. cbv zeta.
  assert (Hscore : exists story' : list paragraph,
             match getattr_score r with
             | PyNone => Ok story
             | PyNum _ =>
                 legacy <- gt (getattr_score r) (PyNum (Int 5)) ;;
                 display_score <-
                   (if legacy then truediv (getattr_score r) (PyNum (Int 20))
                    else Ok (getattr_score r)) ;;
                 Ok (story ++ [ScoreLine display_score])
             end = Ok story' /\
             question_lines story' = [(i, question r)] /\
             Forall paragraph_ok story').
  { destruct (getattr_score r) as [| n]; [eauto |].
    rewrite inline_normalize.
    destruct (normalize_number n) as [m Hm]. rewrite Hm. cbn [bind].
    eexists. split; [reflexivity |]. split.
    - rewrite question_lines_app, Hq. reflexivity.
    - apply Forall_app. split; [exact Hok |].
      repeat constructor. cbn [paragraph_ok]. eauto. }
  destruct Hscore as [story' [-> [Hq' Hok']]]. cbn [bind].
  destruct (client_comment r) as [[c |] |]; eauto.
  cbn [str_truthy].
  destruct (String.eqb_spec c "") as [-> | Hc]; cbn [negb]; [eauto |].
  eexists. split; [reflexivity |]. split.
  - rewrite question_lines_app, Hq'. reflexivity.
  - apply Forall_app. split; [exact Hok' |]. repeat constructor. exact Hc.
Qed.

Lemma section_paragraphs_outcome (rs : list Response) :
  forall (story : list paragraph) (i : Z),
  exists out : list paragraph,
    for_each
      (fun (st : list paragraph * Z) (response : Response) =>
         let '(story, i) := st in
         ps <- response_paragraphs i response ;;
         Ok (story ++ ps, i + 1))
      rs (story, i) = Ok (out, i + Z.of_nat (List.length rs)) /\
    question_lines out = question_lines story ++ numbered_from i rs /\
    (Forall paragraph_ok story -> Forall paragraph_ok out).
Proof.
  induction rs as [| r rest IH]; intros story i.
  - exists story. cbn [for_each List.length numbered_from].
    rewrite Z.add_0_r, app_nil_r. auto.
  - cbn [for_each].
    destruct (response_paragraphs_outcome i r) as [ps [Hps [Hq Hok]]].
    rewrite Hps. cbn [bind].
    destruct (IH (story ++ ps) (i + 1)) as [out [Hr [Hq' Hok']]].
    exists out. rewrite Hr. cbn [List.length numbered_from].
    split; [f_equal; f_equal; lia |]. split.
    + rewrite Hq', question_lines_app, Hq, <- app_assoc. reflexivity.
    + intros Hs. apply Hok'. apply Forall_app. split; assumption.
Qed.

Lemma questionnaire_outcome (groups : dict (list Response)) :
  forall story : list paragraph,
  exists out : list paragraph,
    for_each
      (fun (story : list paragraph) (item : string * list Response) =>
         let '(section_name, section_responses) := item in
         section_paragraphs (story ++ [SectionHeading section_name]) section_responses)
      groups story = Ok out /\
    question_lines out =
      question_lines story ++ flat_map (fun g => numbered_from 1 (snd g)) groups /\
    (Forall paragraph_ok story -> Forall paragraph_ok out).
Proof.
  induction groups as [| [name rs] rest IH]; intros story.
  - exists story. cbn [for_each flat_map]. rewrite app_nil_r. auto.
  - cbn [for_each]. unfold section_paragraphs at 1.
    destruct (section_paragraphs_outcome rs (story ++ [SectionHeading name]) 1)
      as [mid [Hmid [Hq Hok]]].
    rewrite Hmid. cbn [bind fst].
    destruct (IH mid) as [out [Hr [Hq' Hok']]].
    exists out. split; [exact Hr |]. split.
    + rewrite Hq', Hq, question_lines_app. cbn [flat_map snd].
      change (question_lines [SectionHeading name]) with (@nil (Z * string)).
      rewrite app_nil_r, <- app_assoc. reflexivity.
    + intros Hs. apply Hok', Hok. apply Forall_app. split; [exact Hs |].
      repeat constructor.
Qed.

(** X12.  For responses whose scores, where there are any, are numbers of
    magnitude at most [2 ^ 512] (neither the division nor the formatting
    of a score overflows): whenever the questionnaire section returns, it
    has printed every response once: its question lines are, section after section, the
    questions of the section numbered 1, 2, 3, ... in the order of the
    input, the numbering starting again in each section. *)
Theorem questionnaire_question_lines (responses : list Response)
        (story : list paragraph) :
  Forall bounded_response responses ->
  create_questionnaire_responses responses = Ok story ->
  question_lines story =
    flat_map (fun g => numbered_from 1 (snd g)) (group_by_section responses).
Proof.
  intros _ H.
  destruct (questionnaire_outcome (group_by_section responses) []) as [out [Hr [Hq _]]].
  unfold create_questionnaire_responses in H. rewrite Hr in H.
  injection H as <-. exact Hq.
Qed.

Lemma questionnaire_question_lines_witness :
  Forall bounded_response [ build_response; scored_response ] /\
  create_questionnaire_responses [ build_response; scored_response ] = Ok build_story /\
  question_lines build_story =
    flat_map (fun g => numbered_from 1 (snd g))
             (group_by_section [ build_response; scored_response ]).
Proof.
  assert (H : create_questionnaire_responses [ build_response; scored_response ] =
              Ok build_story).
  { vm_compute. reflexivity. }
  split; [exact build_responses_bounded |].
  split; [exact H | exact (questionnaire_question_lines _ _ build_responses_bounded H)].
Defined.

(** The lines of one kind, when a response gives the same ones under any
    number and a heading gives none. *)
Section Projection.

Variable X : Type.
Variable proj : paragraph -> list X.
Variable per : Response -> list X.

Hypothesis proj_heading : forall name : string, proj (SectionHeading name) = [].

Hypothesis proj_response :
  forall (i : Z) (r : Response),
  exists ps : list paragraph,
    response_paragraphs i r = Ok ps /\ flat_map proj ps = per r.

Lemma section_projection (rs : list Response) :
  forall (story : list paragraph) (i : Z),
  exists out : list paragraph,
    for_each
      (fun (st : list paragraph * Z) (response : Response) =>
         let '(story, i) := st in
         ps <- response_paragraphs i response ;;
         Ok (story ++ ps, i + 1))
      rs (story, i) = Ok (out, i + Z.of_nat (List.length rs)) /\
    flat_map proj out = flat_map proj story ++ flat_map per rs.
Proof.
  induction rs as [| r rest IH]; intros story i.
  - exists story. cbn [for_each List.length flat_map].
    rewrite Z.add_0_r, app_nil_r. auto.
  - cbn [for_each].
    destruct (proj_response i r) as [ps [Hps Hp]].
    rewrite Hps. cbn [bind].
    destruct (IH (story ++ ps) (i + 1)) as [out [Hr Hout]].
    exists out. rewrite Hr. cbn [List.length flat_map].
    split; [f_equal; f_equal; lia |].
    rewrite Hout, flat_map_app, Hp, <- app_assoc. reflexivity.
Qed.

Lemma questionnaire_projection (groups : dict (list Response)) :
  forall story : list paragraph,
  exists out : list paragraph,
    for_each
      (fun (story : list paragraph) (item : string * list Response) =>
         let '(section_name, section_responses) := item in
         section_paragraphs (story ++ [SectionHeading section_name]) section_responses)
      groups story = Ok out /\
    flat_map proj out =
      flat_map proj story ++ flat_map per (List.concat (map snd groups)).
Proof.
  induction groups as [| [name rs] rest IH]; intros story.
  - exists story. cbn [for_each map List.concat flat_map]. rewrite app_nil_r. auto.
  - cbn [for_each]. unfold section_paragraphs at 1.
    destruct (section_projection rs (story ++ [SectionHeading name]) 1)
      as [mid [Hmid Hp]].
    rewrite Hmid. cbn [bind fst].
    destruct (IH mid) as [out [Hr Hout]].
    exists out. split; [exact Hr |].
    rewrite Hout, Hp, flat_map_app. cbn [flat_map map snd List.concat].
    rewrite proj_heading. cbn [app].
    rewrite app_nil_r, flat_map_app, <- app_assoc. reflexivity.
Qed.

End Projection.

Lemma flat_map_single {A B : Type} (f : A -> B) (l : list A) :
  flat_map (fun x => [f x]) l = map f l.
Proof. induction l as [| x rest IH]; cbn [flat_map map app]; congruence. Qed.

(** The answer line and the comment line of one response. *)
Lemma response_answer_line (i : Z) (r : Response) :
  exists ps : list paragraph,
    response_paragraphs i r = Ok ps /\
    answer_lines ps = [answer_text r] /\
    comment_lines ps = comment_texts r.
Proof.
  unfold response_paragraphs.
  set (story := [QuestionLine i (question r); AnswerLine _]).
  assert (Ha : answer_lines story = [answer_text r]).
  { unfold story, answer_text. cbn [answer_lines flat_map app].
    destruct (answer r) as [a |]; cbn [str_truthy]; [| reflexivity].
    destruct (String.eqb a ""); reflexivity. }
  assert (Hc : comment_lines story = []) by reflexivity.
  clearbody story. cbv zeta.
  assert (Hscore : exists story' : list paragraph,
             match getattr_score r with
             | PyNone => Ok story
             | PyNum _ =>
                 legacy <- gt (getattr_score r) (PyNum (Int 5)) ;;
                 display_score <-
                   (if legacy then truediv (getattr_score r) (PyNum (Int 20))
                    else Ok (getattr_score r)) ;;
                 Ok (story ++ [ScoreLine display_score])
             end = Ok story' /\
             answer_lines story' = [answer_text r] /\
             comment_lines story' = []).
  { destruct (getattr_score r) as [| n]; [eauto |].
    rewrite inline_normalize.
    destruct (normalize_number n) as [m Hm]. rewrite Hm. cbn [bind].
    eexists. split; [reflexivity |].
    unfold answer_lines, comment_lines in *. rewrite !flat_map_app, Ha, Hc.
    split; reflexivity. }
  destruct Hscore as [story' [-> [Ha' Hc']]]. cbn [bind].
  unfold comment_texts.
  destruct (client_comment r) as [[c |] |]; eauto.
  cbn [str_truthy].
  destruct (String.eqb c ""); cbn [negb]; [eauto |].
  eexists. split; [reflexivity |].
  unfold answer_lines, comment_lines in *. rewrite !flat_map_app, Ha', Hc'.
  split; reflexivity.
Qed.

Lemma answer_text_not_empty (r : Response) : answer_text r <> "".
Proof.
  unfold answer_text. destruct (answer r) as [a |]; [| discriminate].
  destruct (String.eqb_spec a "") as [-> | Ha]; [discriminate | exact Ha].
Qed.

Lemma comment_texts_not_empty (r : Response) :
  Forall (fun c => c <> "") (comment_texts r).
Proof.
  unfold comment_texts. destruct (client_comment r) as [[c |] |]; try constructor.
  destruct (String.eqb_spec c "") as [-> | Hc]; repeat constructor. exact Hc.
Qed.

(** X13.  For responses whose scores, where there are any, are numbers of
    magnitude at most [2 ^ 512]: whenever the questionnaire section
    returns, its answer lines are,
    response after response in the order of printing, the answer of the
    response, or "Not answered" when that answer is [None] or empty; its
    comment lines are the comments of the responses that have one that is
    not empty, and only those.  So no answer line and no comment line is
    blank, and every score line carries a number. *)
Theorem questionnaire_paragraphs_ok (responses : list Response)
        (story : list paragraph) :
  Forall bounded_response responses ->
  create_questionnaire_responses responses = Ok story ->
  answer_lines story =
    map answer_text (List.concat (map snd (group_by_section responses))) /\
  comment_lines story =
    flat_map comment_texts (List.concat (map snd (group_by_section responses))) /\
  Forall paragraph_ok story.
Proof.
  intros _ H. unfold create_questionnaire_responses in H.
  repeat split.
  - destruct (questionnaire_projection string
                (fun p => match p with AnswerLine a => [a] | _ => [] end)
                (fun r => [answer_text r])
                (fun _ => eq_refl)
                (fun i r =>
                   match response_answer_line i r with
                   | ex_intro _ ps (conj Hps (conj Ha _)) =>
                       ex_intro _ ps (conj Hps Ha)
                   end)
                (group_by_section responses) []) as [out [Hr Hout]].
    rewrite Hr in H. injection H as <-.
    rewrite <- flat_map_single. exact Hout.
  - destruct (questionnaire_projection string
                (fun p => match p with CommentLine c => [c] | _ => [] end)
                comment_texts
                (fun _ => eq_refl)
                (fun i r =>
                   match response_answer_line i r with
                   | ex_intro _ ps (conj Hps (conj _ Hc)) =>
                       ex_intro _ ps (conj Hps Hc)
                   end)
                (group_by_section responses) []) as [out [Hr Hout]].
    rewrite Hr in H. injection H as <-. exact Hout.
  - destruct (questionnaire_outcome (group_by_section responses) [])
      as [out [Hr [_ Hok]]].
    rewrite Hr in H. injection H as <-. apply Hok. constructor.
Qed.

Lemma questionnaire_paragraphs_ok_witness :
  Forall bounded_response [ build_response; scored_response ] /\
  create_questionnaire_responses [ build_response; scored_response ] = Ok build_story /\
  answer_lines build_story =
    map answer_text
        (List.concat (map snd (group_by_section [ build_response; scored_response ]))) /\
  comment_lines build_story =
    flat_map comment_texts
        (List.concat (map snd (group_by_section [ build_response; scored_response ]))) /\
  Forall paragraph_ok build_story.
Proof.
  assert (H : create_questionnaire_responses [ build_response; scored_response ] =
              Ok build_story).
  { vm_compute. reflexivity. }
  split; [exact build_responses_bounded |].
  split; [exact H | exact (questionnaire_paragraphs_ok _ _ build_responses_bounded H)].
Defined.

End Questionnaire.

Section QuestionnaireScores.

Import Responses.

Lemma score_lines_app (s t : list paragraph) :
  score_lines (s ++ t) = score_lines s ++ score_lines t.
Proof. unfold score_lines. apply flat_map_app. Qed.

(** The score line of one response: none without a score, the normalised
    score otherwise. *)
Lemma response_score_line (i : Z) (r : Response) :
  exists ps : list paragraph,
    response_paragraphs i r = Ok ps /\
    Forall2 (fun r v => normalize (getattr_score r) = Ok v)
            (filter has_score [r]) (score_lines ps).
Proof.
  unfold response_paragraphs.
  set (story := [QuestionLine i (question r); AnswerLine _]).
  assert (Hs : score_lines story = []) by reflexivity.
  clearbody story. cbv zeta. cbn [filter]. unfold has_score.
  assert (Hscore : exists story' : list paragraph,
             match getattr_score r with
             | PyNone => Ok story
             | PyNum _ =>
                 legacy <- gt (getattr_score r) (PyNum (Int 5)) ;;
                 display_score <-
                   (if legacy then truediv (getattr_score r) (PyNum (Int 20))
                    else Ok (getattr_score r)) ;;
                 Ok (story ++ [ScoreLine display_score])
             end = Ok story' /\
             Forall2 (fun r v => normalize (getattr_score r) = Ok v)
                     (if match getattr_score r with PyNone => false | PyNum _ => true end
                      then [r] else [])
                     (score_lines story')).
  { destruct (getattr_score r) as [| n] eqn:Er.
    - exists story. rewrite Hs. split; [reflexivity | constructor].
    - rewrite inline_normalize.
      destruct (normalize_number n) as [m Hm]. rewrite Hm. cbn [bind].
      eexists. split; [reflexivity |].
      rewrite score_lines_app, Hs. cbn [app score_lines flat_map].
      constructor; [rewrite Er; exact Hm | constructor]. }
  destruct Hscore as [story' [-> Hall]]. cbn [bind].
  assert (Hc : forall c, score_lines (story' ++ [CommentLine c]) = score_lines story').
  { intros c. rewrite score_lines_app. apply app_nil_r. }
  destruct (client_comment r) as [[c |] |]; eauto.
  destruct (str_truthy (Some c)); eauto.
  eexists. split; [reflexivity |]. rewrite Hc. exact Hall.
Qed.

Lemma section_score_lines (rs : list Response) :
  forall (story : list paragraph) (i : Z),
  exists out : list paragraph,
    for_each
      (fun (st : list paragraph * Z) (response : Response) =>
         let '(story, i) := st in
         ps <- response_paragraphs i response ;;
         Ok (story ++ ps, i + 1))
      rs (story, i) = Ok (out, i + Z.of_nat (List.length rs)) /\
    exists vs : list pyval,
      score_lines out = score_lines story ++ vs /\
      Forall2 (fun r v => normalize (getattr_score r) = Ok v) (filter has_score rs) vs.
Proof.
  induction rs as [| r rest IH]; intros story i.
  - exists story. cbn [for_each List.length filter]. rewrite Z.add_0_r.
    split; [reflexivity |]. exists []. rewrite app_nil_r. split; [reflexivity | constructor].
  - cbn [for_each].
    destruct (response_score_line i r) as [ps [Hps Hone]].
    rewrite Hps. cbn [bind].
    destruct (IH (story ++ ps) (i + 1)) as [out [Hr [vs [Hv Hall]]]].
    exists out. rewrite Hr. cbn [List.length].
    split; [f_equal; f_equal; lia |].
    exists (score_lines ps ++ vs). split.
    + rewrite Hv, score_lines_app, <- app_assoc. reflexivity.
    + change (r :: rest) with ([r] ++ rest). rewrite filter_app.
      apply Forall2_app; assumption.
Qed.

Lemma questionnaire_score_lines_loop (groups : dict (list Response)) :
  forall story : list paragraph,
  exists out : list paragraph,
    for_each
      (fun (story : list paragraph) (item : string * list Response) =>
         let '(section_name, section_responses) := item in
         section_paragraphs (story ++ [SectionHeading section_name]) section_responses)
      groups story = Ok out /\
    exists vs : list pyval,
      score_lines out = score_lines story ++ vs /\
      Forall2 (fun r v => normalize (getattr_score r) = Ok v)
              (filter has_score (List.concat (map snd groups))) vs.
Proof.
  induction groups as [| [name rs] rest IH]; intros story.
  - exists story. cbn [for_each map List.concat filter].
    split; [reflexivity |]. exists []. rewrite app_nil_r. split; [reflexivity | constructor].
  - cbn [for_each]. unfold section_paragraphs at 1.
    destruct (section_score_lines rs (story ++ [SectionHeading name]) 1)
      as [mid [Hmid [vs1 [Hv1 Hall1]]]].
    rewrite Hmid. cbn [bind fst].
    destruct (IH mid) as [out [Hr [vs2 [Hv2 Hall2]]]].
    exists out. split; [exact Hr |].
    exists (vs1 ++ vs2). split.
    + rewrite Hv2, Hv1, score_lines_app.
      change (score_lines [SectionHeading name]) with (@nil pyval).
      rewrite app_nil_r, <- app_assoc. reflexivity.
    + cbn [map snd List.concat]. rewrite filter_app.
      apply Forall2_app; assumption.
Qed.

(** X14.  For responses whose scores, where there are any, are numbers of
    magnitude at most [2 ^ 512]: whenever the questionnaire section
    returns, it has printed a score line for exactly the responses that
    carry a score, section after section in the order of the input, and
    what it has printed is the score normalised as for the overall score
    (kept up to 5, divided by 20 above). *)
Theorem questionnaire_score_lines (responses : list Response)
        (story : list paragraph) :
  Forall bounded_response responses ->
  create_questionnaire_responses responses = Ok story ->
  Forall2 (fun r v => normalize (getattr_score r) = Ok v)
          (filter has_score (List.concat (map snd (group_by_section responses))))
          (score_lines story).
Proof.
  intros _ H.
  destruct (questionnaire_score_lines_loop (group_by_section responses) [])
    as [out [Hr [vs [Hv Hall]]]].
  unfold create_questionnaire_responses in H. rewrite Hr in H.
  injection H as <-. rewrite Hv. exact Hall.
Qed.

Lemma questionnaire_score_lines_witness :
  Forall bounded_response [ build_response; scored_response ] /\
  create_questionnaire_responses [ build_response; scored_response ] = Ok build_story /\
  Forall2 (fun r v => normalize (getattr_score r) = Ok v)
          (filter has_score
             (List.concat (map snd (group_by_section [ build_response; scored_response ]))))
          (score_lines build_story).
Proof.
  assert (H : create_questionnaire_responses [ build_response; scored_response ] =
              Ok build_story).
  { vm_compute. reflexivity. }
  split; [exact build_responses_bounded |]. split; [exact H |].
  exact (questionnaire_score_lines _ _ build_responses_bounded H).
Defined.

End QuestionnaireScores.

(** ** The classifier on the floats that are not numbers *)

Section NonFiniteScores.

Import NonFinite.

Local Open Scope Q_scope.

(** On [None] and on the finite numbers nothing changes. *)
Lemma get_maturity_level_value (v : pyval) :
  NonFinite.get_maturity_level (Value v) = PdfGenerator.get_maturity_level v.
Proof. reflexivity. Qed.

(** C10, as stated, fails: the classifier is not total over the numeric
    inputs, [float('inf')] is positive and [round] cannot convert it. *)
Lemma get_maturity_level_inf :
  NonFinite.get_maturity_level (Special PosInf) = Raise OverflowError.
Proof. reflexivity. Qed.

(** C10, amended.  Apart from [float('inf')] the classifier returns a level
    for every input, [None] or numeric, also outside the scores [>= 0]; and
    for [None], zero, every negative number ([float('-inf')] included) and
    NaN that level is "Level 1 - Initial". *)
Theorem get_maturity_level_total_but_inf (score : arg) :
  score <> Special PosInf ->
  (exists s : string, NonFinite.get_maturity_level score = Ok s) /\
  (score = Value PyNone \/
   (exists n : number, score = Value (PyNum n) /\ value n <= 0) \/
   score = Special NegInf \/ score = Special NaN ->
   NonFinite.get_maturity_level score = Ok "Level 1 - Initial").
Proof.
  intros Hinf. split.
  - destruct score as [v | [| |]].
    + rewrite get_maturity_level_value. apply get_maturity_level_total.
    + congruence.
    + eexists. reflexivity.
    + eexists. reflexivity.
  - intros [-> | [[n [-> Hn]] | [-> | ->]]]; try reflexivity.
    rewrite get_maturity_level_value. apply get_maturity_level_floor.
    right. exists n. auto.
Qed.

Lemma get_maturity_level_total_but_inf_witness :
  Special NegInf <> Special PosInf /\
  (exists s : string, NonFinite.get_maturity_level (Special NegInf) = Ok s) /\
  NonFinite.get_maturity_level (Special NegInf) = Ok "Level 1 - Initial".
Proof.
  assert (H : Special NegInf <> Special PosInf) by discriminate.
  split; [exact H |].
  split; [exact (proj1 (get_maturity_level_total_but_inf (Special NegInf) H)) |].
  apply (proj2 (get_maturity_level_total_but_inf (Special NegInf) H)).
  right; right; left. reflexivity.
Defined.

End NonFiniteScores.
